(** * numcodecs [setup.py]: the native-extension build orchestrator

    A shallow embedding of [setup.py] and the properties of its flag
    selection, component descriptors, fault handling and cleanup.

    The script talks to the outside world (environment, CPU introspection,
    file system, [pkg-config], the distutils tool chain).  The host is a
    record of the values the script reads; the tool chain is a record of
    oracles deciding what each external call does; the script itself is
    written in a small exception monad over the file system that also logs
    every external call it makes. *)

From stdpp Require Import base option list strings gmap.
From Stdlib Require Import String Ascii.

Local Open Scope string_scope.
Local Open Scope list_scope.

(** ** The host: everything the script reads at import time *)

Record Host := {
  (** [cpuinfo.get_cpu_info().get('flags')]; [None] when the key is absent *)
  cpu_info_flags : option (list string);
  (** [os.environ] *)
  environ : gmap string string;
  (** [os.name] *)
  os_name : string;
  (** [sys.platform] *)
  sys_platform : string;
  (** [cpuinfo.platform.machine()] *)
  machine : string;
  (** [hasattr(sys, 'pypy_translation_info')] *)
  has_pypy_translation_info : bool
}.

(** [key in os.environ] *)
Definition in_environ (h : Host) (key : string) : bool :=
  bool_decide (is_Some (environ h !! key)).

(** [flags = cpu_info.get('flags', [])] *)
Definition flags (h : Host) : list string := default [] (cpu_info_flags h).

Definition have_sse2 (h : Host) : bool := bool_decide ("sse2" ∈ flags h).
Definition have_avx2 (h : Host) : bool := bool_decide ("avx2" ∈ flags h).
Definition disable_sse2 (h : Host) : bool := in_environ h "DISABLE_NUMCODECS_SSE2".
Definition disable_avx2 (h : Host) : bool := in_environ h "DISABLE_NUMCODECS_AVX2".
Definition have_cflags (h : Host) : bool := in_environ h "CFLAGS".

(** [list.append] *)
Definition append {A} (l : list A) (x : A) : list A := l ++ [x].

(** The module-level computation of [base_compile_args] (lines 24-42). *)
Definition base_compile_args (h : Host) : list string :=
  let args := [] in
  let args :=
    if have_cflags h then
      (* respect compiler options set by user *)
      args
    else if String.eqb (os_name h) "posix" then
      let args :=
        if disable_sse2 h then append args "-mno-sse2"
        else if have_sse2 h then append args "-msse2"
        else args in
      let args :=
        if disable_avx2 h then append args "-mno-avx2"
        else if have_avx2 h then append args "-mavx2"
        else args in
      args
    else args in
  if String.eqb (sys_platform h) "darwin" then append args "-stdlib=libc++"
  else args.

(** The flags that are derived from the probed capabilities. *)
Definition capability_flags : list string :=
  ["-msse2"; "-mavx2"; "-mno-sse2"; "-mno-avx2"].

(** A sample host: a Linux x86_64 machine with both features detected. *)
Definition linux_host (env : gmap string string) : Host :=
  {| cpu_info_flags := Some ["fpu"; "sse2"; "avx2"];
     environ := env;
     os_name := "posix";
     sys_platform := "linux";
     machine := "x86_64";
     has_pypy_translation_info := false |}.

Definition darwin_host (env : gmap string string) : Host :=
  {| cpu_info_flags := Some ["sse2"; "avx2"];
     environ := env;
     os_name := "posix";
     sys_platform := "darwin";
     machine := "x86_64";
     has_pypy_translation_info := false |}.

(** ** Exceptions

    The exception classes the script names or can meet, with the part of
    Python's class hierarchy that decides which [except] clause matches. *)

Inductive ExnClass :=
  | BaseException
  | Exception
  | SystemExit
  | CCompilerError | CompileError | LinkError
  | DistutilsError | ExecError | PlatformError
  | OSError | FileNotFoundError | IsADirectoryError | PermissionError
  | ValueError
  | ImportError | ModuleNotFoundError
  | CalledProcessError
  | BuildFailed.

Global Instance ExnClass_eq_dec : EqDecision ExnClass.
Proof. solve_decision. Defined.

(** [IOError] is an alias of [OSError]. *)
Definition IOError : ExnClass := OSError.

(** The direct base class; [BuildFailed] derives from [Exception]
    (lines 279-280), [SystemExit] from [BaseException] only. *)
Definition base_class (c : ExnClass) : option ExnClass :=
  match c with
  | BaseException => None
  | Exception | SystemExit => Some BaseException
  | CompileError | LinkError => Some CCompilerError
  | ExecError | PlatformError => Some DistutilsError
  | FileNotFoundError | IsADirectoryError | PermissionError => Some OSError
  | ModuleNotFoundError => Some ImportError
  | CCompilerError | DistutilsError | OSError | ValueError | ImportError
  | CalledProcessError | BuildFailed => Some Exception
  end.

Fixpoint mro (depth : nat) (c : ExnClass) : list ExnClass :=
  c :: match depth, base_class c with
       | S d, Some b => mro d b
       | _, _ => []
       end.

Definition issubclass (c d : ExnClass) : bool := bool_decide (d ∈ mro 3 c).

Set Warnings "-register-all".

(** An exception object: its class, its message ([str(e)]) and the
    exception it was raised [from]. *)
Inductive Exn := mkExn (cls : ExnClass) (msg : string) (cause : option Exn).

Definition exn_class (e : Exn) : ExnClass := let 'mkExn c _ _ := e in c.
Definition exn_msg (e : Exn) : string := let 'mkExn _ m _ := e in m.
Definition exn_cause (e : Exn) : option Exn := let 'mkExn _ _ c := e in c.

(** [except classes as e] matches [e] when its class derives from one of
    [classes]. *)
Definition except_matches (classes : list ExnClass) (e : Exn) : bool :=
  existsb (issubclass (exn_class e)) classes.

(** ** The file system and the log of external calls *)

Inductive Node := File | Dir.

Global Instance Node_eq_dec : EqDecision Node.
Proof. solve_decision. Defined.

Abbreviation FS := (gmap string Node).

Inductive Stream := stdout | stderr.

(** The setuptools [Extension] object: the component descriptor.  Omitted
    keyword arguments default to the empty list. *)
Record Extension := {
  name : string;
  sources : list string;
  include_dirs : list string;
  define_macros : list (string * string);
  extra_compile_args : list string;
  extra_link_args : list string;
  extra_objects : list string
}.

(** The two command classes the script defines. *)
Inductive CommandClass := ve_build_ext | Sclean.

Inductive Event :=
  | EvPrint (file : Stream) (line : string)
  | EvSubprocess (argv : list string)
  | EvNewCompiler
  | EvCustomizeCompiler
  | EvCompile (files : list string)
  | EvBuildExtension (ext : Extension)
  | EvRemove (path : string)
  | EvClean
  | EvSetup (ext_modules : list Extension) (cmdclass : gmap string CommandClass).

(** ** The monad: exceptions over the file system, with a log *)

Inductive Outcome (A : Type) := Returned (a : A) | Raised (e : Exn).
Arguments Returned {A} a.
Arguments Raised {A} e.

Record Run (A : Type) := mkRun {
  outcome : Outcome A;
  fs_after : FS;
  trace : list Event
}.
Arguments mkRun {A} _ _ _.
Arguments outcome {A} _.
Arguments fs_after {A} _.
Arguments trace {A} _.

Definition M (A : Type) : Type := FS → Run A.

Definition ret {A} (a : A) : M A := λ fs, mkRun (Returned a) fs [].

Definition raise {A} (e : Exn) : M A := λ fs, mkRun (Raised e) fs [].

Definition bind {A B} (m : M A) (k : A → M B) : M B := λ fs,
  match m fs with
  | mkRun (Returned a) fs1 t1 =>
      match k a fs1 with
      | mkRun o fs2 t2 => mkRun o fs2 (t1 ++ t2)
      end
  | mkRun (Raised e) fs1 t1 => mkRun (Raised e) fs1 t1
  end.

(** [try: m  except classes as e: handler e]; an exception of another
    class passes through. *)
Definition try_except {A} (m : M A) (classes : list ExnClass)
    (handler : Exn → M A) : M A := λ fs,
  match m fs with
  | mkRun (Returned a) fs1 t1 => mkRun (Returned a) fs1 t1
  | mkRun (Raised e) fs1 t1 =>
      if except_matches classes e then
        match handler e fs1 with
        | mkRun o fs2 t2 => mkRun o fs2 (t1 ++ t2)
        end
      else mkRun (Raised e) fs1 t1
  end.

Definition emit (ev : Event) : M unit := λ fs, mkRun (Returned tt) fs [ev].

Definition get_fs : M FS := λ fs, mkRun (Returned fs) fs [].

Definition put_fs (fs' : FS) : M unit := λ _, mkRun (Returned tt) fs' [].

Global Instance M_ret : MRet M := @ret.
Global Instance M_bind : MBind M := λ A B k m, bind m k.

(** [for x in l: body x] *)
Fixpoint for_each {A} (l : list A) (body : A → M unit) : M unit :=
  match l with
  | [] => mret tt
  | x :: l' => body x;; for_each l' body
  end.

(** ** The tool chain: what the external calls do

    None of these is part of [setup.py]; each field decides the result of
    one kind of external call, as a function of the file system the call
    sees. *)

Inductive ProcResult :=
  | Exited (returncode : Z) (output : string)
  | NoSuchProgram.

(** The distutils compiler object, as far as the script touches it. *)
Record Compiler := { src_extensions : list string }.

Record Toolchain := {
  (** glob-pattern matching of a path: [fnmatch pattern path] *)
  fnmatch : string → string → bool;
  (** running a command line to completion *)
  run_process : list string → FS → ProcResult;
  (** [shlex.split]: [None] when it raises, on a string it cannot split
      (unbalanced quotes) *)
  shlex_split_result : string → option (list string);
  (** [numpy.get_include()]; [None] when [numpy] cannot be imported *)
  numpy_get_include : option string;
  (** whether [os.remove] is refused on this regular file *)
  remove_denied : string → FS → bool;
  (** [ccompiler.new_compiler()] *)
  new_compiler_result : FS → Exn + Compiler;
  (** [customize_compiler(compiler)]: [Some e] when it raises *)
  customize_compiler_result : Compiler → FS → option Exn;
  (** [compiler.compile(files)] *)
  compile_result : Compiler → list string → FS → Exn + FS;
  (** the inherited [build_ext.build_extension(self, ext)] *)
  build_extension_result : Extension → FS → Exn + FS;
  (** the inherited [clean.run(self)] *)
  clean_result : FS → Exn + FS
}.

(** An external call that acts on the file system: it is logged, then it
    either raises or leaves a new file system. *)
Definition external (ev : Event) (result : FS → Exn + FS) : M unit :=
  emit ev;;
  fs ← get_fs;
  match result fs with
  | inl e => raise e
  | inr fs' => put_fs fs'
  end.

(** [S[:-1]]: the string without its last character. *)
Fixpoint slice_but_last (S : string) : string :=
  match S with
  | EmptyString => EmptyString
  | String c EmptyString => EmptyString
  | String c S' => String c (slice_but_last S')
  end.

(** [print('[numcodecs]', *msg, file=file)] *)
Definition print_numcodecs (file : Stream) (msg : list string) : M unit :=
  emit (EvPrint file (String.concat " " ("[numcodecs]" :: msg))).

Definition info (msg : list string) : M unit := print_numcodecs stdout msg.

Definition error (msg : list string) : M unit := print_numcodecs stderr msg.

(** [Package = namedtuple('Package', 'cflags libs')] *)
Record Package := { cflags : list string; libs : list string }.

(** [os.path.isdir] *)
Definition isdir (fs : FS) (d : string) : bool := bool_decide (fs !! d = Some Dir).

(** [os.remove]: only a regular file can be removed, and the system may
    refuse even that. *)
Definition os_remove (tc : Toolchain) (f : string) : M unit :=
  external (EvRemove f) (λ fs,
    match fs !! f with
    | Some File =>
        if remove_denied tc f fs then inl (mkExn PermissionError f None)
        else inr (delete f fs)
    | Some Dir => inl (mkExn IsADirectoryError f None)
    | None => inl (mkExn FileNotFoundError f None)
    end).

Inductive Command := build_ext_command | clean_command.

(** The name under which setuptools looks a command up in [cmdclass]. *)
Definition command_name (c : Command) : string :=
  match c with
  | build_ext_command => "build_ext"
  | clean_command => "clean"
  end.

Section script.

Variable h : Host.
Variable tc : Toolchain.

(** [glob(pattern)]: the paths present in the file system that match. *)
Definition glob_fs (pattern : string) (fs : FS) : list string :=
  filter (λ p, fnmatch tc pattern p = true) (map_to_list fs).*1.

Definition glob (pattern : string) : M (list string) :=
  fs ← get_fs; mret (glob_fs pattern fs).

(** [[d for d in glob(pattern) if os.path.isdir(d)]] *)
Definition glob_dirs (pattern : string) : M (list string) :=
  ds ← glob pattern;
  fs ← get_fs;
  mret (filter (λ d, isdir fs d = true) ds).

(** [subprocess.check_output(argv)], decoded by [os.fsdecode]. *)
Definition check_output (argv : list string) : M string :=
  emit (EvSubprocess argv);;
  fs ← get_fs;
  match run_process tc argv fs with
  | Exited rc out =>
      if bool_decide (rc = 0%Z) then mret out
      else raise (mkExn CalledProcessError "returned non-zero exit status" None)
  | NoSuchProgram => raise (mkExn FileNotFoundError "No such file or directory" None)
  end.

(** [shlex.split(s)] *)
Definition shlex_split (s : string) : M (list string) :=
  match shlex_split_result tc s with
  | Some tokens => mret tokens
  | None => raise (mkExn ValueError "No closing quotation" None)
  end.

(** Lines 58-61. *)
Definition pkgconfig (name : string) : M Package :=
  cflags ← check_output ["pkg-config"; "--cflags"; name];
  libs ← check_output ["pkg-config"; "--libs"; name];
  cflags ← shlex_split cflags;
  libs ← shlex_split libs;
  mret {| cflags := cflags; libs := libs |}.

(** Lines 64-87. *)
Definition blosc_extension : M (list Extension) :=
  info ["setting up Blosc extension"];;
  let extra_compile_args := base_compile_args h in
  let define_macros := [] in
  (* setup blosc sources *)
  blosc ← pkgconfig "blosc";
  let extra_compile_args := extra_compile_args ++ cflags blosc in
  let sources := ["numcodecs/blosc.pyx"] in
  (* define extension module *)
  let extensions :=
    [ {| name := "numcodecs.blosc";
         sources := sources;
         include_dirs := [];
         define_macros := define_macros;
         extra_compile_args := extra_compile_args;
         extra_link_args := libs blosc;
         extra_objects := [] |} ] in
  mret extensions.

(** Lines 90-129. *)
Definition zstd_extension : M (list Extension) :=
  info ["setting up Zstandard extension"];;
  let zstd_sources := [] in
  let extra_compile_args := base_compile_args h in
  let include_dirs := [] in
  let define_macros := [] in
  (* setup sources - use zstd bundled in blosc *)
  g ← glob "c-blosc/internal-complibs/zstd*/common/*.c";
  let zstd_sources := zstd_sources ++ g in
  g ← glob "c-blosc/internal-complibs/zstd*/compress/*.c";
  let zstd_sources := zstd_sources ++ g in
  g ← glob "c-blosc/internal-complibs/zstd*/decompress/*.c";
  let zstd_sources := zstd_sources ++ g in
  g ← glob "c-blosc/internal-complibs/zstd*/dictBuilder/*.c";
  let zstd_sources := zstd_sources ++ g in
  d ← glob_dirs "c-blosc/internal-complibs/zstd*";
  let include_dirs := include_dirs ++ d in
  d ← glob_dirs "c-blosc/internal-complibs/zstd*/*";
  let include_dirs := include_dirs ++ d in
  let sources := ["numcodecs/zstd.pyx"] in
  (* include assembly files *)
  extra_objects ←
    (if String.eqb (machine h) "x86_64" then
       S_files ← glob "c-blosc/internal-complibs/zstd*/decompress/*amd64.S";
       mret (map (λ S, slice_but_last S +:+ "o") S_files)
     else mret []);
  (* define extension module *)
  let extensions :=
    [ {| name := "numcodecs.zstd";
         sources := sources ++ zstd_sources;
         include_dirs := include_dirs;
         define_macros := define_macros;
         extra_compile_args := extra_compile_args;
         extra_link_args := [];
         extra_objects := extra_objects |} ] in
  mret extensions.

(** Lines 132-157. *)
Definition lz4_extension : M (list Extension) :=
  info ["setting up LZ4 extension"];;
  let extra_compile_args := base_compile_args h in
  let define_macros := [] in
  (* setup sources - use LZ4 bundled in blosc *)
  lz4_sources ← glob "c-blosc/internal-complibs/lz4*/*.c";
  include_dirs ← glob_dirs "c-blosc/internal-complibs/lz4*";
  let include_dirs := include_dirs ++ ["numcodecs"] in
  let sources := ["numcodecs/lz4.pyx"] in
  let extensions :=
    [ {| name := "numcodecs.lz4";
         sources := sources ++ lz4_sources;
         include_dirs := include_dirs;
         define_macros := define_macros;
         extra_compile_args := extra_compile_args;
         extra_link_args := [];
         extra_objects := [] |} ] in
  mret extensions.

(** [import numpy], as far as the script uses the module: the value of
    its [get_include()]. *)
Definition import_numpy : M string :=
  match numpy_get_include tc with
  | Some include_dir => mret include_dir
  | None => raise (mkExn ModuleNotFoundError "No module named 'numpy'" None)
  end.

(** Lines 160-184. *)
Definition vlen_extension : M (list Extension) :=
  info ["setting up vlen extension"];;
  numpy_include ← import_numpy;
  let extra_compile_args := base_compile_args h in
  let define_macros := [] in
  (* setup sources *)
  let include_dirs := ["numcodecs"; numpy_include] in
  let sources := ["numcodecs/vlen.pyx"] in
  let extensions :=
    [ {| name := "numcodecs.vlen";
         sources := sources;
         include_dirs := include_dirs;
         define_macros := define_macros;
         extra_compile_args := extra_compile_args;
         extra_link_args := [];
         extra_objects := [] |} ] in
  mret extensions.

(** Lines 187-210. *)
Definition fletcher_extension : M (list Extension) :=
  info ["setting up fletcher32 extension"];;
  let extra_compile_args := base_compile_args h in
  let define_macros := [] in
  (* setup sources *)
  let include_dirs := ["numcodecs"] in
  let sources := ["numcodecs/fletcher32.pyx"] in
  let extensions :=
    [ {| name := "numcodecs.fletcher32";
         sources := sources;
         include_dirs := include_dirs;
         define_macros := define_macros;
         extra_compile_args := extra_compile_args;
         extra_link_args := [];
         extra_objects := [] |} ] in
  mret extensions.

(** Lines 213-236. *)
Definition jenkins_extension : M (list Extension) :=
  info ["setting up jenkins extension"];;
  let extra_compile_args := base_compile_args h in
  let define_macros := [] in
  (* setup sources *)
  let include_dirs := ["numcodecs"] in
  let define_macros := define_macros ++ [("CYTHON_TRACE", "1")] in
  let sources := ["numcodecs/jenkins.pyx"] in
  let extensions :=
    [ {| name := "numcodecs.jenkins";
         sources := sources;
         include_dirs := include_dirs;
         define_macros := define_macros;
         extra_compile_args := extra_compile_args;
         extra_link_args := [];
         extra_objects := [] |} ] in
  mret extensions.

(** Lines 239-255. *)
Definition compat_extension : M (list Extension) :=
  info ["setting up compat extension"];;
  let extra_compile_args := base_compile_args h in
  let sources := ["numcodecs/compat_ext.pyx"] in
  let extensions :=
    [ {| name := "numcodecs.compat_ext";
         sources := sources;
         include_dirs := [];
         define_macros := [];
         extra_compile_args := extra_compile_args;
         extra_link_args := [];
         extra_objects := [] |} ] in
  mret extensions.

(** Lines 258-270. *)
Definition shuffle_extension : M (list Extension) :=
  info ["setting up shuffle extension"];;
  let extra_compile_args := base_compile_args h in
  let sources := ["numcodecs/_shuffle.pyx"] in
  let extensions :=
    [ {| name := "numcodecs._shuffle";
         sources := sources;
         include_dirs := [];
         define_macros := [];
         extra_compile_args := extra_compile_args;
         extra_link_args := [];
         extra_objects := [] |} ] in
  mret extensions.

(** Lines 273-276. *)
Definition ext_errors : list ExnClass :=
  if String.eqb (sys_platform h) "win32" then
    [CCompilerError; ExecError; PlatformError; IOError; ValueError]
  else
    [CCompilerError; ExecError; PlatformError].

(** [raise BuildFailed() from e] *)
Definition raise_BuildFailed_from {A} (e : Exn) : M A :=
  raise (mkExn BuildFailed "" (Some e)).

(** *** The inherited distutils commands

    [build_ext.build_extension(self, ext)] is the tool chain's compile and
    link of one component.  [build_ext.run(self)] hands the extension
    modules, one after the other and in order, to the [build_extension]
    method of the command object; it handles nothing that method raises
    (no extension built here is marked optional).  When there is an
    extension to build, distutils prepares the command's own compiler
    object before the loop; that preparation is distutils code, not part
    of [setup.py], and is not modelled. *)

Definition build_ext_build_extension (ext : Extension) : M unit :=
  external (EvBuildExtension ext) (build_extension_result tc ext).

Definition build_ext_run (build_extension : Extension → M unit)
    (extensions : list Extension) : M unit :=
  for_each extensions build_extension.

Definition clean_run : M unit := external EvClean (clean_result tc).

(** *** [class ve_build_ext(build_ext)], lines 283-305 *)

Definition new_compiler : M Compiler :=
  emit EvNewCompiler;;
  fs ← get_fs;
  match new_compiler_result tc fs with
  | inl e => raise e
  | inr compiler => mret compiler
  end.

Definition customize_compiler (compiler : Compiler) : M unit :=
  emit EvCustomizeCompiler;;
  fs ← get_fs;
  match customize_compiler_result tc compiler fs with
  | Some e => raise e
  | None => mret tt
  end.

Definition compile (compiler : Compiler) (files : list string) : M unit :=
  external (EvCompile files) (compile_result tc compiler files).

Definition ve_build_ext_build_extension (ext : Extension) : M unit :=
  try_except (build_ext_build_extension ext) ext_errors
    (λ e, error [exn_msg e];; raise_BuildFailed_from e).

(** The body of the [try] up to the call of [build_ext.run]. *)
Definition precompile_S_files : M unit :=
  if String.eqb (machine h) "x86_64" then
    S_files ← glob "c-blosc/internal-complibs/zstd*/decompress/*amd64.S";
    compiler ← new_compiler;
    customize_compiler compiler;;
    let compiler := {| src_extensions := append (src_extensions compiler) ".S" |} in
    compile compiler S_files
  else mret tt.

Definition ve_build_ext_run (extensions : list Extension) : M unit :=
  try_except
    (precompile_S_files;;
     build_ext_run ve_build_ext_build_extension extensions)
    [PlatformError]
    (λ e, error [exn_msg e];; raise_BuildFailed_from e).

(** *** [class Sclean(clean)], lines 308-317 *)

Definition Sclean_run : M unit :=
  (if String.eqb (machine h) "x86_64" then
     o_files ← glob "c-blosc/internal-complibs/zstd*/decompress/*amd64.o";
     for_each o_files (os_remove tc)
   else mret tt);;
  clean_run.

(** *** [setup(...)]

    setuptools runs the command given on the command line with the class
    registered for it in [cmdclass], or with the inherited class when none
    is registered.  An [OSError], [DistutilsError] or [CCompilerError] that
    leaves the command is turned into [SystemExit] with the message
    [error: ...] (as distutils does unless [DISTUTILS_DEBUG] is set); any
    other exception passes through. *)

Definition run_command_class (c : CommandClass) (ext_modules : list Extension) : M unit :=
  match c with
  | ve_build_ext => ve_build_ext_run ext_modules
  | Sclean => Sclean_run
  end.

Definition run_inherited_command (command : Command) (ext_modules : list Extension) : M unit :=
  match command with
  | build_ext_command => build_ext_run build_ext_build_extension ext_modules
  | clean_command => clean_run
  end.

Definition setup (ext_modules : list Extension)
    (cmdclass : gmap string CommandClass) (command : Command) : M unit :=
  emit (EvSetup ext_modules cmdclass);;
  try_except
    (match cmdclass !! command_name command with
     | Some c => run_command_class c ext_modules
     | None => run_inherited_command command ext_modules
     end)
    [OSError; DistutilsError; CCompilerError]
    (λ e, raise (mkExn SystemExit ("error: " +:+ exn_msg e) None)).

(** The sum of the builders' results in [run_setup], lines 322-331. *)
Definition all_extensions : M (list Extension) :=
  e1 ← blosc_extension;
  e2 ← zstd_extension;
  e3 ← lz4_extension;
  e4 ← compat_extension;
  e5 ← shuffle_extension;
  e6 ← vlen_extension;
  e7 ← fletcher_extension;
  e8 ← jenkins_extension;
  mret (e1 ++ e2 ++ e3 ++ e4 ++ e5 ++ e6 ++ e7 ++ e8).

(** Lines 320-341. *)
Definition run_setup (with_extensions : bool) (command : Command) : M unit :=
  '(ext_modules, cmdclass) ←
    (if with_extensions then
       ext_modules ← all_extensions;
       let cmdclass : gmap string CommandClass :=
         {[ "build_ext" := ve_build_ext; "clean" := Sclean ]} in
       mret (ext_modules, cmdclass)
     else mret ([], ∅));
  setup ext_modules cmdclass command.

(** Lines 344-347. *)
Definition main (command : Command) : M unit :=
  let is_pypy := has_pypy_translation_info h in
  let with_extensions :=
    negb is_pypy && negb (in_environ h "DISABLE_NUMCODECS_CEXT") in
  run_setup with_extensions command.

End script.

(** ** A sample tool chain and source tree *)

(** A glob matcher: [*] stands for any run of characters other than [/]. *)
Fixpoint wildcard_match (pattern path : list ascii) : bool :=
  match pattern with
  | [] => match path with [] => true | _ => false end
  | p :: pattern' =>
      if Ascii.eqb p "*" then
        (fix star (path : list ascii) : bool :=
           wildcard_match pattern' path
           || match path with
              | [] => false
              | c :: path' => negb (Ascii.eqb c "/") && star path'
              end) path
      else
        match path with
        | [] => false
        | c :: path' => Ascii.eqb p c && wildcard_match pattern' path'
        end
  end.

Definition sample_fnmatch (pattern path : string) : bool :=
  wildcard_match (list_ascii_of_string pattern) (list_ascii_of_string path).

(** A registry that knows every package, or fails as [failure] says. *)
Definition sample_run_process (failure : option ProcResult)
    (argv : list string) (fs : FS) : ProcResult :=
  match failure with
  | Some r => r
  | None =>
      match argv with
      | ["pkg-config"; "--cflags"; _] => Exited 0 "-I/usr/include"
      | ["pkg-config"; "--libs"; _] => Exited 0 "-lblosc"
      | _ => NoSuchProgram
      end
  end.

(** The compiler writes the object file next to each source. *)
Definition sample_compile (failure : option Exn) (compiler : Compiler)
    (files : list string) (fs : FS) : Exn + FS :=
  match failure with
  | Some e => inl e
  | None => inr (foldr (λ f acc, <[slice_but_last f +:+ "o" := File]> acc) fs files)
  end.

(** Building a component leaves its shared object under [build/], unless
    the component is one of [broken], for which the compiler fails with
    [failure]. *)
Definition sample_build_extension (broken : list string) (failure : ExnClass)
    (ext : Extension) (fs : FS) : Exn + FS :=
  if bool_decide (name ext ∈ broken) then
    inl (mkExn failure "command 'gcc' failed with exit code 1" None)
  else inr (<["build/" +:+ name ext +:+ ".so" := File]> fs).

(** The inherited cleanup removes what lies under [build/]. *)
Definition sample_clean (fs : FS) : Exn + FS :=
  inr (filter (λ kv, String.prefix "build/" kv.1 = false) fs).

Definition sample_toolchain (pkg_failure : option ProcResult)
    (compile_failure : option Exn) (broken : list string)
    (failure : ExnClass) : Toolchain :=
  {| fnmatch := sample_fnmatch;
     run_process := sample_run_process pkg_failure;
     shlex_split_result := λ s, Some [s];
     numpy_get_include := Some "numpy/core/include";
     remove_denied := λ _ _, false;
     new_compiler_result := λ _, inr {| src_extensions := [".c"; ".cpp"] |};
     customize_compiler_result := λ _ _, None;
     compile_result := sample_compile compile_failure;
     build_extension_result := sample_build_extension broken failure;
     clean_result := sample_clean |}.

Definition good_toolchain : Toolchain :=
  sample_toolchain None None [] CompileError.

Definition sample_tree : FS :=
  list_to_map
    [ ("c-blosc/internal-complibs/zstd-1.5.2", Dir);
      ("c-blosc/internal-complibs/zstd-1.5.2/common", Dir);
      ("c-blosc/internal-complibs/zstd-1.5.2/common/debug.c", File);
      ("c-blosc/internal-complibs/zstd-1.5.2/decompress", Dir);
      ("c-blosc/internal-complibs/zstd-1.5.2/decompress/huf_decompress.c", File);
      ("c-blosc/internal-complibs/zstd-1.5.2/decompress/huf_decompress_amd64.S", File);
      ("c-blosc/internal-complibs/lz4-1.9.3", Dir);
      ("c-blosc/internal-complibs/lz4-1.9.3/lz4.c", File) ].

Definition arm_host (env : gmap string string) : Host :=
  {| cpu_info_flags := None;
     environ := env;
     os_name := "posix";
     sys_platform := "linux";
     machine := "aarch64";
     has_pypy_translation_info := false |}.

Definition windows_host (env : gmap string string) : Host :=
  {| cpu_info_flags := Some ["sse2"; "avx2"];
     environ := env;
     os_name := "nt";
     sys_platform := "win32";
     machine := "AMD64";
     has_pypy_translation_info := false |}.

(** A descriptor with nothing in it but its name and one source. *)
Definition plain_extension (name source : string) : Extension :=
  {| name := name;
     sources := [source];
     include_dirs := [];
     define_macros := [];
     extra_compile_args := [];
     extra_link_args := [];
     extra_objects := [] |}.

(** The names of the components handed to the inherited compile-and-link
    step in a run, in order. *)
Definition attempted_builds {A} (r : Run A) : list string :=
  omap (λ ev, match ev with EvBuildExtension e => Some (name e) | _ => None end)
       (trace r).

(** A process did not end with exit status 0: it exited with another
    status, or the program is absent. *)
Definition process_fails (r : ProcResult) : bool :=
  match r with
  | Exited rc _ => negb (bool_decide (rc = 0%Z))
  | NoSuchProgram => true
  end.

(** The events of the main build step: a component handed to the
    compile-and-link step, or a message on stderr. *)
Definition build_step_event (ev : Event) : bool :=
  match ev with
  | EvBuildExtension _ | EvPrint stderr _ => true
  | _ => false
  end.

(** How many times [compiler.compile] was called in a log. *)
Definition compile_event (ev : Event) : bool :=
  match ev with
  | EvCompile _ => true
  | _ => false
  end.

Definition compile_calls (t : list Event) : nat :=
  List.length (filter (λ ev, compile_event ev = true) t).

(** The sample tree after a build on [x86_64]: the object file of the
    assembly source and a built component are there. *)
Definition built_tree : FS :=
  <["c-blosc/internal-complibs/zstd-1.5.2/decompress/huf_decompress_amd64.o" := File]>
    (<["build/numcodecs.zstd.so" := File]> sample_tree).

(** The working tool chain on a tree that is read-only: [os.remove] is
    refused. *)
Definition read_only_toolchain : Toolchain :=
  {| fnmatch := sample_fnmatch;
     run_process := sample_run_process None;
     shlex_split_result := λ s, Some [s];
     numpy_get_include := Some "numpy/core/include";
     remove_denied := λ _ _, true;
     new_compiler_result := λ _, inr {| src_extensions := [".c"; ".cpp"] |};
     customize_compiler_result := λ _ _, None;
     compile_result := sample_compile None;
     build_extension_result := sample_build_extension [] CompileError;
     clean_result := sample_clean |}.

(** The sample tree with a directory where the object file of the
    assembly source would be. *)
Definition odd_tree : FS :=
  <["c-blosc/internal-complibs/zstd-1.5.2/decompress/huf_decompress_amd64.o" := Dir]>
    sample_tree.

(** The events of a failed resolution of [blosc]: the builder's message
    and the queries to the registry, nothing else. *)
Definition blosc_resolution_event (ev : Event) : Prop :=
  ev = EvPrint stdout "[numcodecs] setting up Blosc extension" ∨
  ∃ mode, ev = EvSubprocess ["pkg-config"; mode; "blosc"].

(** A builder that cannot fail: it prints its message and returns one
    descriptor, leaving the file system alone. *)
Definition returns_one (b : M (list Extension)) (message : string)
    (P : FS → Extension → Prop) : Prop :=
  ∀ fs, ∃ ext,
    b fs = mkRun (Returned [ext]) fs [EvPrint stdout message] ∧ P fs ext.

(** The name and the macro definitions of each descriptor of a list. *)
Definition names_and_macros (exts : list Extension)
    : list (string * list (string * string)) :=
  map (λ ext, (name ext, define_macros ext)) exts.

(** The events of descriptor assembly: a builder's message on stdout, or
    a query to the package registry. *)
Definition assembly_event (ev : Event) : bool :=
  match ev with
  | EvPrint stdout _ | EvSubprocess _ => true
  | _ => false
  end.

(** The lines printed to stderr in a run, in order. *)
Definition stderr_lines {A} (r : Run A) : list string :=
  omap (λ ev, match ev with EvPrint stderr line => Some line | _ => None end)
       (trace r).

(* ================================================================= *)
(** * Properties *)

(** ** The base compile arguments *)

Example base_compile_args_plain :
  base_compile_args (linux_host ∅) = ["-msse2"; "-mavx2"].
Proof. vm_compute. reflexivity. Qed.

Example base_compile_args_no_sse2 :
  base_compile_args (linux_host {[ "DISABLE_NUMCODECS_SSE2" := "1" ]})
  = ["-mno-sse2"; "-mavx2"].
Proof. vm_compute. reflexivity. Qed.

Example base_compile_args_darwin_cflags :
  base_compile_args (darwin_host {[ "CFLAGS" := "-O3" ]}) = ["-stdlib=libc++"].
Proof. vm_compute. reflexivity. Qed.

Lemma in_environ_true (h : Host) (key : string) :
  in_environ h key = true ↔ is_Some (environ h !! key).
Proof. unfold in_environ. apply bool_decide_eq_true. Qed.

(** Membership in a list of string literals is settled by comparing the
    literals. *)
Ltac literal_membership :=
  repeat match goal with
  | H : _ ∈ [] |- _ => apply elem_of_nil in H; destruct H
  | H : _ ∈ _ :: _ |- _ => apply elem_of_cons in H as [H|H]; [discriminate H|]
  | H : _ ∈ _ ++ _ |- _ => apply elem_of_app in H as [H|H]
  end.

(** C2.  Whatever the CPU reports and whatever else the environment holds,
    when [DISABLE_NUMCODECS_SSE2] is set the flag [-msse2] is not among the
    base compile arguments, and when [DISABLE_NUMCODECS_AVX2] is set the
    flag [-mavx2] is not among them. *)
Theorem disable_override_drops_feature_flag (h : Host) :
  (is_Some (environ h !! "DISABLE_NUMCODECS_SSE2") →
   "-msse2" ∉ base_compile_args h) ∧
  (is_Some (environ h !! "DISABLE_NUMCODECS_AVX2") →
   "-mavx2" ∉ base_compile_args h).
Proof.
  split; intros Hdis%in_environ_true Hin; revert Hin;
    unfold base_compile_args, append;
    [ change (in_environ h "DISABLE_NUMCODECS_SSE2") with (disable_sse2 h) in Hdis
    | change (in_environ h "DISABLE_NUMCODECS_AVX2") with (disable_avx2 h) in Hdis ];
    rewrite Hdis;
    repeat match goal with |- context [if ?b then _ else _] => destruct b end;
    simpl; intros Hin; literal_membership.
Qed.

Lemma disable_override_drops_feature_flag_witness :
  have_sse2 (linux_host {[ "DISABLE_NUMCODECS_SSE2" := "1" ]}) = true ∧
  ("-msse2" ∉ base_compile_args (linux_host {[ "DISABLE_NUMCODECS_SSE2" := "1" ]})) ∧
  have_avx2 (linux_host {[ "DISABLE_NUMCODECS_AVX2" := "1" ]}) = true ∧
  ("-mavx2" ∉ base_compile_args (linux_host {[ "DISABLE_NUMCODECS_AVX2" := "1" ]})).
Proof.
  split; [reflexivity|]. split.
  - apply (proj1 (disable_override_drops_feature_flag _)). vm_compute. eauto.
  - split; [reflexivity|].
    apply (proj2 (disable_override_drops_feature_flag _)). vm_compute. eauto.
Defined.

(** C3.  When [CFLAGS] is in the environment, none of [-msse2], [-mavx2],
    [-mno-sse2], [-mno-avx2] is among the base compile arguments, whatever
    the CPU reports and whatever overrides are set; the list is then
    [-stdlib=libc++] alone on macOS and empty elsewhere.  On macOS
    [-stdlib=libc++] is appended in every case: it is the last argument,
    with or without [CFLAGS]. *)
Theorem cflags_suppress_capability_flags (h : Host) :
  (is_Some (environ h !! "CFLAGS") →
   (∀ f, f ∈ capability_flags → f ∉ base_compile_args h) ∧
   base_compile_args h =
     (if String.eqb (sys_platform h) "darwin" then ["-stdlib=libc++"] else [])) ∧
  (sys_platform h = "darwin" →
   ∃ args, base_compile_args h = args ++ ["-stdlib=libc++"]).
Proof.
  split.
  - intros Hc%in_environ_true.
    assert (Heq : base_compile_args h =
      (if String.eqb (sys_platform h) "darwin" then ["-stdlib=libc++"] else [])).
    { unfold base_compile_args, append.
      change (in_environ h "CFLAGS") with (have_cflags h) in Hc. rewrite Hc.
      reflexivity. }
    split; [|exact Heq].
    intros f Hf Hin. rewrite Heq in Hin. unfold capability_flags in Hf.
    destruct (String.eqb (sys_platform h) "darwin").
    + apply list_elem_of_singleton in Hin. subst f. literal_membership.
    + apply elem_of_nil in Hin. exact Hin.
  - intros Hd%String.eqb_eq. unfold base_compile_args. rewrite Hd.
    eexists. reflexivity.
Qed.

Lemma cflags_suppress_capability_flags_witness :
  (∀ f, f ∈ capability_flags →
     f ∉ base_compile_args (darwin_host {[ "CFLAGS" := "-O3" ]})) ∧
  base_compile_args (darwin_host {[ "CFLAGS" := "-O3" ]}) = ["-stdlib=libc++"] ∧
  ∃ args, base_compile_args (darwin_host ∅) = args ++ ["-stdlib=libc++"].
Proof.
  destruct (cflags_suppress_capability_flags (darwin_host {[ "CFLAGS" := "-O3" ]}))
    as [Hc _].
  destruct Hc as [Hnone Heq]; [vm_compute; eauto|].
  split; [exact Hnone|]. split; [exact Heq|].
  apply (proj2 (cflags_suppress_capability_flags (darwin_host ∅))).
  reflexivity.
Defined.

(** ** The script on the sample tree *)

Example slice_but_last_S :
  slice_but_last "huf_decompress_amd64.S" +:+ "o" = "huf_decompress_amd64.o".
Proof. reflexivity. Qed.

Example slice_but_last_empty : slice_but_last "" +:+ "o" = "o".
Proof. reflexivity. Qed.

Example glob_S_files :
  glob_fs good_toolchain "c-blosc/internal-complibs/zstd*/decompress/*amd64.S"
    sample_tree
  = ["c-blosc/internal-complibs/zstd-1.5.2/decompress/huf_decompress_amd64.S"].
Proof. vm_compute. reflexivity. Qed.

Example full_build_on_linux :
  let r := main (linux_host ∅) good_toolchain build_ext_command sample_tree in
  outcome r = Returned tt ∧
  attempted_builds r =
    ["numcodecs.blosc"; "numcodecs.zstd"; "numcodecs.lz4"; "numcodecs.compat_ext";
     "numcodecs._shuffle"; "numcodecs.vlen"; "numcodecs.fletcher32";
     "numcodecs.jenkins"] ∧
  fs_after r
    !! "c-blosc/internal-complibs/zstd-1.5.2/decompress/huf_decompress_amd64.o"
  = Some File.
Proof. vm_compute. repeat split; reflexivity. Qed.

Example issubclass_hierarchy :
  issubclass CompileError CCompilerError = true ∧
  issubclass FileNotFoundError IOError = true ∧
  issubclass BuildFailed PlatformError = false ∧
  issubclass BuildFailed Exception = true.
Proof. vm_compute. repeat split; reflexivity. Qed.

(** ** The monad *)

Lemma bind_run {A B} (m : M A) (k : A → M B) (fs : FS) :
  (m ≫= k) fs =
  match outcome (m fs) with
  | Returned a =>
      mkRun (outcome (k a (fs_after (m fs)))) (fs_after (k a (fs_after (m fs))))
            (trace (m fs) ++ trace (k a (fs_after (m fs))))
  | Raised e => mkRun (Raised e) (fs_after (m fs)) (trace (m fs))
  end.
Proof.
  cbv [mbind M_bind bind]. destruct (m fs) as [[a|e] fs1 t1]; [|reflexivity].
  simpl. destruct (k a fs1); reflexivity.
Qed.

Lemma try_except_run {A} (m : M A) (classes : list ExnClass)
    (handler : Exn → M A) (fs : FS) :
  try_except m classes handler fs =
  match outcome (m fs) with
  | Returned a => m fs
  | Raised e =>
      if except_matches classes e then
        mkRun (outcome (handler e (fs_after (m fs))))
              (fs_after (handler e (fs_after (m fs))))
              (trace (m fs) ++ trace (handler e (fs_after (m fs))))
      else m fs
  end.
Proof.
  unfold try_except. destruct (m fs) as [[a|e] fs1 t1]; [reflexivity|].
  simpl. destruct (except_matches classes e); [|reflexivity].
  destruct (handler e fs1); reflexivity.
Qed.

Lemma bind_returned {A B} (m : M A) (k : A → M B) (fs : FS) (a : A) :
  outcome (m fs) = Returned a →
  (m ≫= k) fs =
  mkRun (outcome (k a (fs_after (m fs)))) (fs_after (k a (fs_after (m fs))))
        (trace (m fs) ++ trace (k a (fs_after (m fs)))).
Proof. intros H. rewrite bind_run, H. reflexivity. Qed.

Lemma bind_raised {A B} (m : M A) (k : A → M B) (fs : FS) (e : Exn) :
  outcome (m fs) = Raised e →
  (m ≫= k) fs = mkRun (Raised e) (fs_after (m fs)) (trace (m fs)).
Proof. intros H. rewrite bind_run, H. reflexivity. Qed.

(** Running the monad's own operations. *)
Ltac run_eval :=
  cbv [mbind M_bind bind try_except mret M_ret ret raise emit get_fs put_fs
       external];
  cbn [outcome fs_after trace app].

Lemma outcome_bind {A B} (m : M A) (k : A → M B) (fs : FS) :
  outcome ((m ≫= k) fs) =
  match outcome (m fs) with
  | Returned a => outcome (k a (fs_after (m fs)))
  | Raised e => Raised e
  end.
Proof. rewrite bind_run. destruct (outcome (m fs)); reflexivity. Qed.

Lemma run_eta {A} (r : Run A) : mkRun (outcome r) (fs_after r) (trace r) = r.
Proof. destruct r. reflexivity. Qed.

Lemma bind_assoc {A B C} (m : M A) (f : A → M B) (g : B → M C) (fs : FS) :
  ((m ≫= f) ≫= g) fs = (m ≫= (λ a, f a ≫= g)) fs.
Proof.
  rewrite !bind_run. destruct (outcome (m fs)) as [a|e]; simpl; [|reflexivity].
  rewrite !bind_run.
  destruct (outcome (f a (fs_after (m fs)))) as [b|e]; simpl; [|reflexivity].
  rewrite app_assoc. reflexivity.
Qed.

Lemma for_each_app {A} (l1 l2 : list A) (body : A → M unit) (fs : FS) :
  for_each (l1 ++ l2) body fs = (for_each l1 body;; for_each l2 body) fs.
Proof.
  revert fs. induction l1 as [|x l1 IH]; intros fs.
  - simpl. rewrite bind_run. simpl. rewrite run_eta. reflexivity.
  - simpl. rewrite bind_assoc. rewrite !(bind_run (body x)).
    destruct (outcome (body x fs)); [|reflexivity].
    rewrite IH. reflexivity.
Qed.

(** ** The errors a component build is allowed to fail with *)

Lemma external_raised (ev : Event) (result : FS → Exn + FS) (fs : FS) (e : Exn) :
  result fs = inl e →
  external ev result fs = mkRun (Raised e) fs [ev].
Proof.
  intros H. unfold external. rewrite !bind_run. simpl. rewrite H. reflexivity.
Qed.

Lemma external_returned (ev : Event) (result : FS → Exn + FS) (fs fs' : FS) :
  result fs = inr fs' →
  external ev result fs = mkRun (Returned tt) fs' [ev].
Proof.
  intros H. unfold external. rewrite !bind_run. simpl. rewrite H. reflexivity.
Qed.

(** What [build_extension] does with an exception of the inherited step:
    one in [ext_errors] is printed to stderr and replaced by [BuildFailed],
    any other is passed on as it is. *)
Lemma build_extension_raised (h : Host) (tc : Toolchain) (ext : Extension)
    (fs : FS) (e : Exn) :
  build_extension_result tc ext fs = inl e →
  ve_build_ext_build_extension h tc ext fs =
  if except_matches (ext_errors h) e then
    mkRun (Raised (mkExn BuildFailed "" (Some e))) fs
      [EvBuildExtension ext; EvPrint stderr ("[numcodecs] " +:+ exn_msg e)]
  else mkRun (Raised e) fs [EvBuildExtension ext].
Proof.
  intros H. unfold ve_build_ext_build_extension, try_except, build_ext_build_extension.
  rewrite (external_raised _ _ _ _ H). simpl.
  destruct (except_matches (ext_errors h) e); reflexivity.
Qed.

Lemma build_extension_returned (h : Host) (tc : Toolchain) (ext : Extension)
    (fs fs' : FS) :
  build_extension_result tc ext fs = inr fs' →
  ve_build_ext_build_extension h tc ext fs =
  mkRun (Returned tt) fs' [EvBuildExtension ext].
Proof.
  intros H. unfold ve_build_ext_build_extension, try_except, build_ext_build_extension.
  rewrite (external_returned _ _ _ _ H). reflexivity.
Qed.

(** An exception that leaves [build_extension] for a component and that
    the handler of [ve_build_ext.run] does not match leaves the command:
    the components after it are not reached. *)
Lemma ve_build_ext_run_component_raises (h : Host) (tc : Toolchain)
    (pre post : list Extension) (ext : Extension) (fs : FS) (e' : Exn)
    (t : list Event) :
  let r0 := (precompile_S_files h tc;;
             build_ext_run (ve_build_ext_build_extension h tc) pre) fs in
  outcome r0 = Returned tt →
  ve_build_ext_build_extension h tc ext (fs_after r0)
  = mkRun (Raised e') (fs_after r0) t →
  except_matches [PlatformError] e' = false →
  ve_build_ext_run h tc (pre ++ ext :: post) fs =
  mkRun (Raised e') (fs_after r0) (trace r0 ++ t).
Proof.
  intros r0 Hr0 He Hm. subst r0. unfold ve_build_ext_run, try_except.
  unfold build_ext_run in *.
  destruct (outcome (precompile_S_files h tc fs)) as [[]|e0] eqn:Hp;
    [|rewrite (bind_raised _ _ _ _ Hp) in Hr0; discriminate Hr0].
  rewrite (bind_returned _ _ _ _ Hp) in Hr0.
  rewrite (bind_returned _ _ _ _ Hp) in He.
  rewrite (bind_returned _ _ _ _ Hp).
  cbn [outcome fs_after trace] in Hr0, He |- *.
  rewrite for_each_app.
  rewrite (bind_returned _ _ _ _ Hr0). cbn [outcome fs_after trace for_each].
  rewrite (bind_raised _ _ _ e' (f_equal outcome He)), He.
  cbn [outcome fs_after trace]. rewrite Hm.
  rewrite (bind_returned _ _ _ _ Hp). cbn [outcome fs_after trace].
  rewrite <- app_assoc. reflexivity.
Qed.

(** C10, as the code has it.  The classes that [build_extension] turns
    into [BuildFailed] are [CCompilerError], [ExecError], [PlatformError],
    [IOError] and [ValueError] on [win32] and the first three on every
    other platform: a component build that fails with one of the first
    three raises [BuildFailed] everywhere, and one that fails with
    [IOError] or [ValueError] raises [BuildFailed] on [win32] and that same
    exception elsewhere.  On no platform is the failure recovered from:
    what [build_extension] raises, [BuildFailed] included, leaves the
    [build_ext] command as it is, and the components after the failing one
    are not handed to the compile-and-link step. *)
Theorem ext_errors_by_platform (h : Host) (tc : Toolchain)
    (pre post : list Extension) (ext : Extension) (fs : FS) (e : Exn) :
  let r0 := (precompile_S_files h tc;;
             build_ext_run (ve_build_ext_build_extension h tc) pre) fs in
  let step := ve_build_ext_build_extension h tc ext (fs_after r0) in
  let r := ve_build_ext_run h tc (pre ++ ext :: post) fs in
  outcome r0 = Returned tt →
  build_extension_result tc ext (fs_after r0) = inl e →
  ext_errors h =
    (if String.eqb (sys_platform h) "win32"
     then [CCompilerError; ExecError; PlatformError; IOError; ValueError]
     else [CCompilerError; ExecError; PlatformError]) ∧
  (exn_class e ∈ [CCompilerError; ExecError; PlatformError] →
   outcome step = Raised (mkExn BuildFailed "" (Some e))) ∧
  (exn_class e ∈ [IOError; ValueError] →
   outcome step
   = if String.eqb (sys_platform h) "win32"
     then Raised (mkExn BuildFailed "" (Some e))
     else Raised e) ∧
  (exn_class e ∈ [CCompilerError; ExecError; PlatformError; IOError; ValueError] →
   outcome r = outcome step ∧
   fs_after r = fs_after r0 ∧
   attempted_builds r = attempted_builds r0 ++ [name ext]).
Proof.
  intros r0 step r Hr0 He. split; [reflexivity|].
  pose proof (build_extension_raised h tc ext _ e He) as Hstep.
  fold step in Hstep.
  split; [|split].
  - rewrite Hstep. unfold except_matches, ext_errors. intros Hc.
    repeat (apply elem_of_cons in Hc as [Hc|Hc]; [rewrite Hc|]);
      try (apply elem_of_nil in Hc; destruct Hc);
      destruct (String.eqb (sys_platform h) "win32"); reflexivity.
  - rewrite Hstep. unfold except_matches, ext_errors. intros Hc.
    repeat (apply elem_of_cons in Hc as [Hc|Hc]; [rewrite Hc|]);
      try (apply elem_of_nil in Hc; destruct Hc);
      destruct (String.eqb (sys_platform h) "win32"); reflexivity.
  - intros Hc. destruct (except_matches (ext_errors h) e) eqn:Hm.
    + unfold r.
      rewrite (ve_build_ext_run_component_raises h tc pre post ext fs _ _
                 Hr0 Hstep eq_refl).
      rewrite Hstep. fold r0. split; [reflexivity|]. split; [reflexivity|].
      unfold attempted_builds. cbn [trace]. rewrite omap_app. reflexivity.
    + assert (Hp : except_matches [PlatformError] e = false).
      { revert Hm. unfold except_matches, ext_errors.
        repeat (apply elem_of_cons in Hc as [Hc|Hc]; [rewrite Hc|]);
          try (apply elem_of_nil in Hc; destruct Hc);
          destruct (String.eqb (sys_platform h) "win32");
          intros Hm; first [reflexivity | discriminate Hm]. }
      unfold r.
      rewrite (ve_build_ext_run_component_raises h tc pre post ext fs _ _
                 Hr0 Hstep Hp).
      rewrite Hstep. fold r0. split; [reflexivity|]. split; [reflexivity|].
      unfold attempted_builds. cbn [trace]. rewrite omap_app. reflexivity.
Qed.

Lemma ext_errors_by_platform_witness :
  let e := mkExn ValueError "command 'gcc' failed with exit code 1" None in
  let tc := sample_toolchain None None ["numcodecs.zstd"] ValueError in
  let blosc := plain_extension "numcodecs.blosc" "numcodecs/blosc.pyx" in
  let zstd := plain_extension "numcodecs.zstd" "numcodecs/zstd.pyx" in
  let lz4 := plain_extension "numcodecs.lz4" "numcodecs/lz4.pyx" in
  let on_windows :=
    ve_build_ext_run (windows_host ∅) tc ([blosc] ++ zstd :: [lz4]) sample_tree in
  let on_linux :=
    ve_build_ext_run (linux_host ∅) tc ([blosc] ++ zstd :: [lz4]) sample_tree in
  outcome on_windows = Raised (mkExn BuildFailed "" (Some e)) ∧
  attempted_builds on_windows = ["numcodecs.blosc"; "numcodecs.zstd"] ∧
  outcome on_linux = Raised e ∧
  attempted_builds on_linux = ["numcodecs.blosc"; "numcodecs.zstd"].
Proof.
  intros e tc blosc zstd lz4 on_windows on_linux.
  assert (Hc : exn_class e ∈ [IOError; ValueError]) by (right; left).
  assert (Hc' : exn_class e
                ∈ [CCompilerError; ExecError; PlatformError; IOError; ValueError])
    by (do 4 right; left).
  destruct (ext_errors_by_platform (windows_host ∅) tc [blosc] [lz4] zstd
              sample_tree e) as (_ & _ & Hw & Hrw);
    [vm_compute; reflexivity|vm_compute; reflexivity|].
  destruct (ext_errors_by_platform (linux_host ∅) tc [blosc] [lz4] zstd
              sample_tree e) as (_ & _ & Hl & Hrl);
    [vm_compute; reflexivity|vm_compute; reflexivity|].
  destruct (Hrw Hc') as (Hwo & _ & Hwa). destruct (Hrl Hc') as (Hlo & _ & Hla).
  split; [unfold on_windows; rewrite Hwo; exact (Hw Hc)|].
  split; [unfold on_windows; rewrite Hwa; vm_compute; reflexivity|].
  split; [unfold on_linux; rewrite Hlo; exact (Hl Hc)|].
  unfold on_linux; rewrite Hla; vm_compute; reflexivity.
Defined.

(** C10 as stated fails: on [win32] a [ValueError] in the build of the
    Zstandard component is turned into [BuildFailed], which nothing
    handles.  The script ends with it, and the six components after
    Zstandard are never handed to the compile-and-link step. *)
Lemma win32_failure_counterexample :
  let h := windows_host ∅ in
  let tc := sample_toolchain None None ["numcodecs.zstd"] ValueError in
  let e := mkExn ValueError "command 'gcc' failed with exit code 1" None in
  let r := main h tc build_ext_command sample_tree in
  sys_platform h = "win32" ∧
  exn_class e ∈ ext_errors h ∧
  outcome r = Raised (mkExn BuildFailed "" (Some e)) ∧
  attempted_builds r = ["numcodecs.blosc"; "numcodecs.zstd"] ∧
  ¬ (outcome r = Returned tt ∨ "numcodecs.lz4" ∈ attempted_builds r).
Proof.
  intros h tc e r.
  assert (Ho : outcome r = Raised (mkExn BuildFailed "" (Some e)))
    by (vm_compute; reflexivity).
  assert (Ha : attempted_builds r = ["numcodecs.blosc"; "numcodecs.zstd"])
    by (vm_compute; reflexivity).
  split; [reflexivity|]. split; [vm_compute; do 4 right; left|].
  split; [exact Ho|]. split; [exact Ha|].
  intros [Hret|Hin].
  - rewrite Ho in Hret. discriminate Hret.
  - rewrite Ha in Hin.
    repeat (apply elem_of_cons in Hin as [Hin|Hin]; [discriminate Hin|]).
    apply elem_of_nil in Hin. exact Hin.
Qed.

(** ** One failing component *)

Lemma BuildFailed_passes_run_handler (e : Exn) :
  except_matches [PlatformError] (mkExn BuildFailed "" (Some e)) = false.
Proof. reflexivity. Qed.

(** C1, as the code has it.  When the components before [ext] were built
    and the compile-and-link step of [ext] raises an exception [e] of a
    class in [ext_errors], the [build_ext] command prints [e] to stderr and
    raises [BuildFailed] from it.  The run stops there: its log ends with
    the attempt on [ext] and the message, so none of the components after
    [ext] is handed to the compile-and-link step. *)
Theorem build_failure_aborts_run (h : Host) (tc : Toolchain)
    (pre post : list Extension) (ext : Extension) (fs : FS) (e : Exn) :
  let r0 := (precompile_S_files h tc;;
             build_ext_run (ve_build_ext_build_extension h tc) pre) fs in
  outcome r0 = Returned tt →
  build_extension_result tc ext (fs_after r0) = inl e →
  except_matches (ext_errors h) e = true →
  ve_build_ext_run h tc (pre ++ ext :: post) fs =
  mkRun (Raised (mkExn BuildFailed "" (Some e))) (fs_after r0)
        (trace r0 ++ [EvBuildExtension ext;
                      EvPrint stderr ("[numcodecs] " +:+ exn_msg e)]).
Proof.
  intros r0 Hr0 He Hm. subst r0. unfold ve_build_ext_run, try_except.
  unfold build_ext_run in *.
  destruct (outcome (precompile_S_files h tc fs)) as [[]|e0] eqn:Hp;
    [|rewrite (bind_raised _ _ _ _ Hp) in Hr0; discriminate Hr0].
  rewrite (bind_returned _ _ _ _ Hp) in Hr0.
  rewrite (bind_returned _ _ _ _ Hp) in He.
  rewrite (bind_returned _ _ _ _ Hp). simpl in Hr0, He |- *.
  rewrite for_each_app.
  rewrite (bind_returned _ _ _ _ Hr0). simpl.
  rewrite bind_run.
  rewrite (build_extension_raised h tc ext _ e He), Hm. simpl.
  rewrite (bind_returned _ _ _ _ Hp). simpl.
  rewrite <- app_assoc. reflexivity.
Qed.

Lemma build_failure_aborts_run_witness :
  let tc := sample_toolchain None None ["numcodecs.zstd"] CompileError in
  let blosc := plain_extension "numcodecs.blosc" "numcodecs/blosc.pyx" in
  let zstd := plain_extension "numcodecs.zstd" "numcodecs/zstd.pyx" in
  let lz4 := plain_extension "numcodecs.lz4" "numcodecs/lz4.pyx" in
  let r := ve_build_ext_run (linux_host ∅) tc ([blosc] ++ zstd :: [lz4]) sample_tree in
  outcome r
  = Raised (mkExn BuildFailed ""
      (Some (mkExn CompileError "command 'gcc' failed with exit code 1" None))) ∧
  attempted_builds r = ["numcodecs.blosc"; "numcodecs.zstd"].
Proof.
  intros tc blosc zstd lz4 r. subst r.
  rewrite (build_failure_aborts_run (linux_host ∅) tc [blosc] [lz4] zstd sample_tree
             (mkExn CompileError "command 'gcc' failed with exit code 1" None));
    [split| | |]; vm_compute; reflexivity.
Defined.

(** C1 as stated fails: with a compiler that cannot build the Zstandard
    component, the whole script ends with [BuildFailed], and the six
    components after it are never handed to the compile-and-link step. *)
Lemma fault_isolation_counterexample :
  let h := linux_host ∅ in
  let tc := sample_toolchain None None ["numcodecs.zstd"] CompileError in
  let e := mkExn CompileError "command 'gcc' failed with exit code 1" None in
  let r := main h tc build_ext_command sample_tree in
  except_matches (ext_errors h) e = true ∧
  outcome r = Raised (mkExn BuildFailed "" (Some e)) ∧
  attempted_builds r = ["numcodecs.blosc"; "numcodecs.zstd"] ∧
  ¬ (outcome r = Returned tt ∧ "numcodecs.lz4" ∈ attempted_builds r).
Proof.
  intros h tc e r.
  assert (Ho : outcome r = Raised (mkExn BuildFailed "" (Some e)))
    by (vm_compute; reflexivity).
  repeat split; try (vm_compute; reflexivity); try exact Ho.
  intros [Hret _]. rewrite Ho in Hret. discriminate Hret.
Qed.

(** ** Bypassing the native builds *)

(** C4.  On PyPy, or with [DISABLE_NUMCODECS_CEXT] in the environment, the
    script calls [run_setup] with [with_extensions] false.  All it then
    does is call [setup] with an empty list of extension modules and an
    empty [cmdclass]: no builder runs (nothing is printed, no subprocess is
    started), nothing is compiled or built, and the [build_ext] command
    returns normally with the file system as it was; the [clean] command is
    the inherited one alone. *)
Theorem bypass_skips_native_builds (h : Host) (tc : Toolchain)
    (command : Command) (fs : FS) :
  has_pypy_translation_info h = true ∨
  is_Some (environ h !! "DISABLE_NUMCODECS_CEXT") →
  main h tc command = run_setup h tc false command ∧
  trace (main h tc command fs) =
    EvSetup [] ∅ ::
    match command with
    | build_ext_command => []
    | clean_command => [EvClean]
    end ∧
  (command = build_ext_command →
   outcome (main h tc command fs) = Returned tt ∧
   fs_after (main h tc command fs) = fs).
Proof.
  intros Hby.
  assert (Hw : negb (has_pypy_translation_info h)
               && negb (in_environ h "DISABLE_NUMCODECS_CEXT") = false).
  { destruct Hby as [Hp|He].
    - rewrite Hp. reflexivity.
    - apply in_environ_true in He. rewrite He. apply andb_false_r. }
  unfold main. rewrite Hw. split; [reflexivity|].
  unfold run_setup, setup. run_eval. rewrite lookup_empty.
  destruct command; unfold run_inherited_command, build_ext_run, clean_run;
    cbn [for_each]; run_eval.
  - split; [reflexivity|]. intros _. split; reflexivity.
  - split; [|discriminate].
    destruct (clean_result tc fs) as [e|fs'];
      [destruct (except_matches [OSError; DistutilsError; CCompilerError] e)|];
      reflexivity.
Qed.

Lemma bypass_skips_native_builds_witness :
  let h := linux_host {[ "DISABLE_NUMCODECS_CEXT" := "1" ]} in
  trace (main h good_toolchain build_ext_command sample_tree) = [EvSetup [] ∅] ∧
  outcome (main h good_toolchain build_ext_command sample_tree) = Returned tt ∧
  fs_after (main h good_toolchain build_ext_command sample_tree) = sample_tree.
Proof.
  intros h.
  assert (Hby : has_pypy_translation_info h = true ∨
                is_Some (environ h !! "DISABLE_NUMCODECS_CEXT"))
    by (right; vm_compute; eauto).
  destruct (bypass_skips_native_builds h good_toolchain build_ext_command
              sample_tree Hby) as (_ & Ht & Ho).
  split; [exact Ht|]. apply Ho. reflexivity.
Defined.

(** ** Resolving the external package *)

Lemma check_output_run (tc : Toolchain) (argv : list string) (fs : FS) :
  check_output tc argv fs =
  match run_process tc argv fs with
  | Exited rc out =>
      if bool_decide (rc = 0%Z) then mkRun (Returned out) fs [EvSubprocess argv]
      else mkRun (Raised (mkExn CalledProcessError "returned non-zero exit status" None))
             fs [EvSubprocess argv]
  | NoSuchProgram =>
      mkRun (Raised (mkExn FileNotFoundError "No such file or directory" None))
        fs [EvSubprocess argv]
  end.
Proof.
  unfold check_output. rewrite !bind_run. simpl.
  destruct (run_process tc argv fs) as [rc out|]; [|reflexivity].
  destruct (bool_decide (rc = 0%Z)); reflexivity.
Qed.

Lemma blosc_extension_raises (h : Host) (tc : Toolchain) (fs : FS) :
  process_fails (run_process tc ["pkg-config"; "--cflags"; "blosc"] fs) = true ∨
  process_fails (run_process tc ["pkg-config"; "--libs"; "blosc"] fs) = true →
  ∃ e, exn_class e ∈ [CalledProcessError; FileNotFoundError] ∧
       outcome (blosc_extension h tc fs) = Raised e ∧
       fs_after (blosc_extension h tc fs) = fs ∧
       Forall blosc_resolution_event (trace (blosc_extension h tc fs)).
Proof.
  intros Hfail. unfold blosc_extension, pkgconfig, info, print_numcodecs.
  rewrite !bind_run. simpl. rewrite ?bind_run, ?check_output_run.
  assert (Hp : blosc_resolution_event
                 (EvPrint stdout "[numcodecs] setting up Blosc extension"))
    by (left; reflexivity).
  assert (Hs : ∀ mode, blosc_resolution_event (EvSubprocess ["pkg-config"; mode; "blosc"]))
    by (intros mode; right; exists mode; reflexivity).
  destruct (run_process tc ["pkg-config"; "--cflags"; "blosc"] fs) as [rc out|];
    simpl in *.
  - destruct (bool_decide (rc = 0%Z)); simpl in *.
    + destruct Hfail as [Hfail|Hfail]; [discriminate Hfail|].
      rewrite ?bind_run, ?check_output_run.
      destruct (run_process tc ["pkg-config"; "--libs"; "blosc"] fs) as [rc' out'|];
        simpl in *.
      * destruct (bool_decide (rc' = 0%Z)); simpl in *; [discriminate Hfail|].
        eexists. split; [|split; [reflexivity|split; [reflexivity|]]].
        -- simpl. left.
        -- repeat (apply Forall_cons; split; [auto|]); apply Forall_nil_2.
      * eexists. split; [|split; [reflexivity|split; [reflexivity|]]].
        -- simpl. right. left.
        -- repeat (apply Forall_cons; split; [auto|]); apply Forall_nil_2.
    + eexists. split; [|split; [reflexivity|split; [reflexivity|]]].
      * simpl. left.
      * repeat (apply Forall_cons; split; [auto|]); apply Forall_nil_2.
  - eexists. split; [|split; [reflexivity|split; [reflexivity|]]].
    + simpl. right. left.
    + repeat (apply Forall_cons; split; [auto|]); apply Forall_nil_2.
Qed.

(** C6.  When a [pkg-config] query for [blosc] exits with a non-zero
    status, or [pkg-config] is absent, [run_setup] raises the error of that
    query ([CalledProcessError] or [FileNotFoundError]).  Nothing happened
    before it but the Blosc builder's message and the queries: no other
    builder ran, [setup] was not called and no component was built. *)
Theorem blosc_resolution_failure_is_fatal (h : Host) (tc : Toolchain)
    (command : Command) (fs : FS) :
  process_fails (run_process tc ["pkg-config"; "--cflags"; "blosc"] fs) = true ∨
  process_fails (run_process tc ["pkg-config"; "--libs"; "blosc"] fs) = true →
  ∃ e, exn_class e ∈ [CalledProcessError; FileNotFoundError] ∧
       outcome (run_setup h tc true command fs) = Raised e ∧
       fs_after (run_setup h tc true command fs) = fs ∧
       Forall blosc_resolution_event (trace (run_setup h tc true command fs)).
Proof.
  intros Hfail.
  destruct (blosc_extension_raises h tc fs Hfail) as (e & Hc & Ho & Hfs & Ht).
  exists e. split; [exact Hc|].
  unfold run_setup, all_extensions.
  rewrite bind_run, bind_run, (bind_raised _ _ _ _ Ho). simpl.
  auto.
Qed.

Lemma blosc_resolution_failure_is_fatal_witness :
  let failing := sample_toolchain (Some (Exited 1 "")) None [] CompileError in
  let absent := sample_toolchain (Some NoSuchProgram) None [] CompileError in
  (∃ e, exn_class e ∈ [CalledProcessError; FileNotFoundError] ∧
        outcome (run_setup (linux_host ∅) failing true build_ext_command sample_tree)
        = Raised e ∧
        fs_after (run_setup (linux_host ∅) failing true build_ext_command sample_tree)
        = sample_tree ∧
        Forall blosc_resolution_event
          (trace (run_setup (linux_host ∅) failing true build_ext_command sample_tree))) ∧
  (∃ e, exn_class e ∈ [CalledProcessError; FileNotFoundError] ∧
        outcome (run_setup (linux_host ∅) absent true build_ext_command sample_tree)
        = Raised e ∧
        fs_after (run_setup (linux_host ∅) absent true build_ext_command sample_tree)
        = sample_tree ∧
        Forall blosc_resolution_event
          (trace (run_setup (linux_host ∅) absent true build_ext_command sample_tree))).
Proof.
  intros failing absent. split.
  - apply (blosc_resolution_failure_is_fatal (linux_host ∅) failing
             build_ext_command sample_tree).
    left. vm_compute. reflexivity.
  - apply (blosc_resolution_failure_is_fatal (linux_host ∅) absent
             build_ext_command sample_tree).
    left. vm_compute. reflexivity.
Defined.

(** ** The component descriptors *)

Ltac run_builder :=
  eexists; split;
  [ rewrite ?bind_run; simpl; reflexivity | simpl; auto ].

Lemma zstd_extension_returns (h : Host) (tc : Toolchain) :
  returns_one (zstd_extension h tc) "[numcodecs] setting up Zstandard extension"
    (λ fs ext,
       name ext = "numcodecs.zstd" ∧ define_macros ext = [] ∧
       extra_objects ext =
         if String.eqb (machine h) "x86_64" then
           map (λ S, slice_but_last S +:+ "o")
             (glob_fs tc "c-blosc/internal-complibs/zstd*/decompress/*amd64.S" fs)
         else []).
Proof.
  intros fs. unfold zstd_extension.
  destruct (String.eqb (machine h) "x86_64"); run_builder.
Qed.

Lemma lz4_extension_returns (h : Host) (tc : Toolchain) :
  returns_one (lz4_extension h tc) "[numcodecs] setting up LZ4 extension"
    (λ _ ext, name ext = "numcodecs.lz4" ∧ define_macros ext = []).
Proof. intros fs. unfold lz4_extension. run_builder. Qed.

Lemma compat_extension_returns (h : Host) :
  returns_one (compat_extension h) "[numcodecs] setting up compat extension"
    (λ _ ext, name ext = "numcodecs.compat_ext" ∧ define_macros ext = []).
Proof. intros fs. unfold compat_extension. run_builder. Qed.

Lemma shuffle_extension_returns (h : Host) :
  returns_one (shuffle_extension h) "[numcodecs] setting up shuffle extension"
    (λ _ ext, name ext = "numcodecs._shuffle" ∧ define_macros ext = []).
Proof. intros fs. unfold shuffle_extension. run_builder. Qed.

(** The vlen builder returns its descriptor, or raises when [numpy]
    cannot be imported; either way it has only printed its message. *)
Lemma vlen_extension_returns (h : Host) (tc : Toolchain) (fs : FS) :
  (∃ ext,
     vlen_extension h tc fs
     = mkRun (Returned [ext]) fs
         [EvPrint stdout "[numcodecs] setting up vlen extension"] ∧
     name ext = "numcodecs.vlen" ∧ define_macros ext = [] ∧
     extra_compile_args ext = base_compile_args h ∧ extra_link_args ext = [] ∧
     sources ext = ["numcodecs/vlen.pyx"]) ∨
  (∃ e,
     vlen_extension h tc fs
     = mkRun (Raised e) fs
         [EvPrint stdout "[numcodecs] setting up vlen extension"] ∧
     exn_class e = ModuleNotFoundError).
Proof.
  unfold vlen_extension, import_numpy, info, print_numcodecs.
  destruct (numpy_get_include tc) as [include_dir|]; run_eval.
  - left. eexists. split; [reflexivity|]. repeat split; reflexivity.
  - right. eexists. split; reflexivity.
Qed.

Lemma fletcher_extension_returns (h : Host) :
  returns_one (fletcher_extension h) "[numcodecs] setting up fletcher32 extension"
    (λ _ ext, name ext = "numcodecs.fletcher32" ∧ define_macros ext = []).
Proof. intros fs. unfold fletcher_extension. run_builder. Qed.

Lemma jenkins_extension_returns (h : Host) :
  returns_one (jenkins_extension h) "[numcodecs] setting up jenkins extension"
    (λ _ ext, name ext = "numcodecs.jenkins" ∧
              define_macros ext = [("CYTHON_TRACE", "1")]).
Proof. intros fs. unfold jenkins_extension. run_builder. Qed.

(** The Blosc builder is the one that can fail; when it returns, it
    returns one descriptor and has left the file system alone. *)
Lemma blosc_extension_returns (h : Host) (tc : Toolchain) (fs : FS)
    (exts : list Extension) :
  outcome (blosc_extension h tc fs) = Returned exts →
  fs_after (blosc_extension h tc fs) = fs ∧
  ∃ ext, exts = [ext] ∧ name ext = "numcodecs.blosc" ∧ define_macros ext = [].
Proof.
  unfold blosc_extension, pkgconfig, info, print_numcodecs.
  rewrite !bind_run. simpl. rewrite ?bind_run, ?check_output_run.
  destruct (run_process tc ["pkg-config"; "--cflags"; "blosc"] fs) as [rc out|];
    [|discriminate].
  destruct (bool_decide (rc = 0%Z)); [|discriminate]. simpl.
  rewrite ?bind_run, ?check_output_run.
  destruct (run_process tc ["pkg-config"; "--libs"; "blosc"] fs) as [rc' out'|];
    [|discriminate].
  destruct (bool_decide (rc' = 0%Z)); [|discriminate]. simpl.
  unfold shlex_split.
  destruct (shlex_split_result tc out) as [c|]; [|discriminate]. simpl.
  destruct (shlex_split_result tc out') as [l|]; [|discriminate]. simpl.
  intros [= <-]. split; [reflexivity|]. eexists. split; [reflexivity|]. auto.
Qed.

Lemma all_extensions_names_and_macros (h : Host) (tc : Toolchain) (fs : FS)
    (exts : list Extension) :
  outcome (all_extensions h tc fs) = Returned exts →
  names_and_macros exts =
    [ ("numcodecs.blosc", []); ("numcodecs.zstd", []); ("numcodecs.lz4", []);
      ("numcodecs.compat_ext", []); ("numcodecs._shuffle", []);
      ("numcodecs.vlen", []); ("numcodecs.fletcher32", []);
      ("numcodecs.jenkins", [("CYTHON_TRACE", "1")]) ].
Proof.
  unfold all_extensions. rewrite outcome_bind.
  destruct (outcome (blosc_extension h tc fs)) as [e1|] eqn:Hb; [|discriminate].
  destruct (blosc_extension_returns h tc fs e1 Hb) as (-> & x1 & -> & Hn1 & Hm1).
  cbn [outcome fs_after]. rewrite outcome_bind.
  destruct (zstd_extension_returns h tc fs) as (x2 & -> & Hn2 & Hm2 & _).
  cbn [outcome fs_after]. rewrite outcome_bind.
  destruct (lz4_extension_returns h tc fs) as (x3 & -> & Hn3 & Hm3).
  cbn [outcome fs_after]. rewrite outcome_bind.
  destruct (compat_extension_returns h fs) as (x4 & -> & Hn4 & Hm4).
  cbn [outcome fs_after]. rewrite outcome_bind.
  destruct (shuffle_extension_returns h fs) as (x5 & -> & Hn5 & Hm5).
  cbn [outcome fs_after]. rewrite outcome_bind.
  destruct (vlen_extension_returns h tc fs)
    as [(x6 & -> & Hn6 & Hm6 & _)|(e6 & -> & _)]; [|discriminate].
  cbn [outcome fs_after]. rewrite outcome_bind.
  destruct (fletcher_extension_returns h fs) as (x7 & -> & Hn7 & Hm7).
  cbn [outcome fs_after]. rewrite outcome_bind.
  destruct (jenkins_extension_returns h fs) as (x8 & -> & Hn8 & Hm8).
  cbn [outcome fs_after]. intros [= <-]. unfold names_and_macros. simpl.
  rewrite Hn1, Hm1, Hn2, Hm2, Hn3, Hm3, Hn4, Hm4, Hn5, Hm5, Hn6, Hm6,
    Hn7, Hm7, Hn8, Hm8.
  reflexivity.
Qed.

(** C9.  The jenkins builder attaches [('CYTHON_TRACE', '1')] whatever the
    host, the environment and the architecture are, and in the full list of
    descriptors the jenkins component is the only one whose [define_macros]
    holds anything: the seven others have an empty list. *)
Theorem tracing_macro_only_on_jenkins (h : Host) (tc : Toolchain) (fs : FS) :
  (∃ ext, jenkins_extension h fs
          = mkRun (Returned [ext]) fs
              [EvPrint stdout "[numcodecs] setting up jenkins extension"] ∧
          name ext = "numcodecs.jenkins" ∧
          define_macros ext = [("CYTHON_TRACE", "1")]) ∧
  (∀ exts, outcome (all_extensions h tc fs) = Returned exts →
     names_and_macros exts =
       [ ("numcodecs.blosc", []); ("numcodecs.zstd", []); ("numcodecs.lz4", []);
         ("numcodecs.compat_ext", []); ("numcodecs._shuffle", []);
         ("numcodecs.vlen", []); ("numcodecs.fletcher32", []);
         ("numcodecs.jenkins", [("CYTHON_TRACE", "1")]) ]).
Proof.
  split.
  - apply jenkins_extension_returns.
  - apply all_extensions_names_and_macros.
Qed.

Lemma tracing_macro_only_on_jenkins_witness :
  ∃ exts,
    outcome (all_extensions (arm_host ∅) good_toolchain sample_tree) = Returned exts ∧
    names_and_macros exts =
      [ ("numcodecs.blosc", []); ("numcodecs.zstd", []); ("numcodecs.lz4", []);
        ("numcodecs.compat_ext", []); ("numcodecs._shuffle", []);
        ("numcodecs.vlen", []); ("numcodecs.fletcher32", []);
        ("numcodecs.jenkins", [("CYTHON_TRACE", "1")]) ].
Proof.
  eexists. split.
  - vm_compute. reflexivity.
  - apply (proj2 (tracing_macro_only_on_jenkins (arm_host ∅) good_toolchain
                    sample_tree)).
    vm_compute. reflexivity.
Defined.

(** ** The precompilation of the assembly files *)

Lemma slice_but_last_app (stem : string) (c : ascii) :
  slice_but_last (stem +:+ String c EmptyString) = stem.
Proof.
  induction stem as [|a stem IH]; [reflexivity|].
  simpl. rewrite IH. destruct stem; reflexivity.
Qed.

(** What the precompilation does, call by call. *)
Lemma precompile_S_files_run (h : Host) (tc : Toolchain) (fs : FS) :
  precompile_S_files h tc fs =
  if String.eqb (machine h) "x86_64" then
    let S_files := glob_fs tc "c-blosc/internal-complibs/zstd*/decompress/*amd64.S" fs in
    match new_compiler_result tc fs with
    | inl e => mkRun (Raised e) fs [EvNewCompiler]
    | inr compiler =>
        match customize_compiler_result tc compiler fs with
        | Some e => mkRun (Raised e) fs [EvNewCompiler; EvCustomizeCompiler]
        | None =>
            match compile_result tc
                    {| src_extensions := src_extensions compiler ++ [".S"] |}
                    S_files fs with
            | inl e =>
                mkRun (Raised e) fs
                  [EvNewCompiler; EvCustomizeCompiler; EvCompile S_files]
            | inr fs' =>
                mkRun (Returned tt) fs'
                  [EvNewCompiler; EvCustomizeCompiler; EvCompile S_files]
            end
        end
    end
  else mkRun (Returned tt) fs [].
Proof.
  unfold precompile_S_files.
  destruct (String.eqb (machine h) "x86_64"); [|reflexivity].
  unfold new_compiler, customize_compiler, compile, glob, append.
  run_eval.
  destruct (new_compiler_result tc fs) as [e|compiler]; [reflexivity|]. run_eval.
  destruct (customize_compiler_result tc compiler fs) as [e|]; [reflexivity|]. run_eval.
  destruct (compile_result tc _ _ fs); reflexivity.
Qed.

Lemma build_loop_events (h : Host) (tc : Toolchain) (exts : list Extension) (fs : FS) :
  Forall (λ ev, build_step_event ev = true)
    (trace (for_each exts (ve_build_ext_build_extension h tc) fs)).
Proof.
  revert fs. induction exts as [|ext exts IH]; intros fs; simpl.
  - apply Forall_nil_2.
  - rewrite bind_run.
    destruct (build_extension_result tc ext fs) as [e|fs'] eqn:Hb.
    + rewrite (build_extension_raised h tc ext fs e Hb).
      destruct (except_matches (ext_errors h) e); simpl;
        repeat (apply Forall_cons; split; [reflexivity|]); apply Forall_nil_2.
    + rewrite (build_extension_returned h tc ext fs fs' Hb). simpl.
      apply Forall_cons. split; [reflexivity|]. apply IH.
Qed.

(** The log of the [build_ext] command: the precompilation, then the main
    build step, which is not entered when the precompilation raises. *)
Lemma ve_build_ext_run_trace (h : Host) (tc : Toolchain) (exts : list Extension)
    (fs : FS) :
  ∃ rest,
    trace (ve_build_ext_run h tc exts fs)
    = trace (precompile_S_files h tc fs) ++ rest ∧
    Forall (λ ev, build_step_event ev = true) rest ∧
    (∀ e, outcome (precompile_S_files h tc fs) = Raised e →
          ∀ ext, EvBuildExtension ext ∉ rest).
Proof.
  unfold ve_build_ext_run, try_except, build_ext_run. rewrite bind_run.
  pose proof (build_loop_events h tc exts (fs_after (precompile_S_files h tc fs)))
    as Hloop.
  destruct (outcome (precompile_S_files h tc fs)) as [[]|e]; cbn [outcome fs_after trace].
  - destruct (outcome (for_each exts _ _)) as [[]|e]; cbn [outcome fs_after trace].
    + eexists. split; [reflexivity|]. split; [exact Hloop|]. discriminate.
    + destruct (except_matches [PlatformError] e); cbn [outcome fs_after trace].
      * exists (trace (for_each exts (ve_build_ext_build_extension h tc)
                        (fs_after (precompile_S_files h tc fs)))
                ++ [EvPrint stderr ("[numcodecs] " +:+ exn_msg e)]).
        split; [rewrite app_assoc; reflexivity|]. split; [|discriminate].
        apply Forall_app. split; [exact Hloop|].
        apply Forall_cons. split; [reflexivity|]. apply Forall_nil_2.
      * eexists. split; [reflexivity|]. split; [exact Hloop|]. discriminate.
  - destruct (except_matches [PlatformError] e); cbn [outcome fs_after trace].
    + eexists. split; [reflexivity|]. split.
      * apply Forall_cons. split; [reflexivity|]. apply Forall_nil_2.
      * intros _ _ ext Hin. apply list_elem_of_singleton in Hin. discriminate Hin.
    + exists []. split; [rewrite app_nil_r; reflexivity|]. split.
      * apply Forall_nil_2.
      * intros _ _ ext Hin. apply elem_of_nil in Hin. exact Hin.
Qed.

Lemma build_step_events_no_compile (t : list Event) :
  Forall (λ ev, build_step_event ev = true) t → compile_calls t = 0.
Proof.
  unfold compile_calls. induction 1 as [|ev t Hev _ IH]; [reflexivity|].
  rewrite filter_cons. destruct (decide (compile_event ev = true)) as [Hc|_].
  - destruct ev; try discriminate Hc. discriminate Hev.
  - exact IH.
Qed.

Lemma compile_calls_app (t1 t2 : list Event) :
  compile_calls (t1 ++ t2) = compile_calls t1 + compile_calls t2.
Proof. unfold compile_calls. rewrite filter_app, length_app. reflexivity. Qed.


(** The precompilation itself hands no component to the compile-and-link
    step. *)
Lemma precompile_S_files_events (h : Host) (tc : Toolchain) (fs : FS) :
  Forall (λ ev, build_step_event ev = false) (trace (precompile_S_files h tc fs)).
Proof.
  rewrite precompile_S_files_run.
  destruct (String.eqb (machine h) "x86_64"); [|apply Forall_nil_2].
  cbv zeta.
  destruct (new_compiler_result tc fs) as [e|c];
    [|destruct (customize_compiler_result tc c fs) as [e|];
      [|destruct (compile_result tc _ _ fs)]];
    cbn [trace]; repeat (apply Forall_cons; split; [reflexivity|]);
    apply Forall_nil_2.
Qed.



(** C7 as stated fails: on [x86_64], when the assembler cannot compile the
    matched files the compiler raises [CompileError], a class that
    [build_extension] would turn into [BuildFailed]; the [build_ext]
    command lets it through unchanged. *)
Lemma precompile_failure_counterexample :
  let h := linux_host ∅ in
  let e := mkExn CompileError "command 'gcc' failed with exit code 1" None in
  let tc := sample_toolchain None (Some e) [] CompileError in
  let r := ve_build_ext_run h tc [] sample_tree in
  except_matches (ext_errors h) e = true ∧
  outcome (precompile_S_files h tc sample_tree) = Raised e ∧
  outcome r = Raised e ∧
  exn_class e ≠ BuildFailed.
Proof.
  intros h e tc r. repeat split; try (vm_compute; reflexivity). discriminate.
Qed.

(** C7, as the code has it.  When the precompilation raises [e], no
    component is handed to the compile-and-link step; if [e] is a
    [PlatformError] it is printed to stderr and [BuildFailed] is raised
    from it, the signal [build_extension] raises, and otherwise [e] itself
    leaves the command.  The compiler is called on the assembly files at
    most once in a run, and the calls of the precompilation come before
    everything the main build step does: never on a machine other than
    [x86_64], and exactly once on [x86_64] when the compiler could be set
    up. *)
Theorem precompile_failure_handling (h : Host) (tc : Toolchain)
    (exts : list Extension) (fs : FS) :
  let p := precompile_S_files h tc fs in
  let r := ve_build_ext_run h tc exts fs in
  (∀ e, outcome p = Raised e →
     attempted_builds r = [] ∧
     r = if except_matches [PlatformError] e
         then mkRun (Raised (mkExn BuildFailed "" (Some e))) (fs_after p)
                (trace p ++ [EvPrint stderr ("[numcodecs] " +:+ exn_msg e)])
         else mkRun (Raised e) (fs_after p) (trace p)) ∧
  (∃ rest, trace r = trace p ++ rest ∧
           Forall (λ ev, build_step_event ev = true) rest ∧
           Forall (λ ev, build_step_event ev = false) (trace p)) ∧
  (compile_calls (trace r) ≤ 1)%nat ∧
  (machine h ≠ "x86_64" → compile_calls (trace r) = 0) ∧
  (machine h = "x86_64" →
   ∀ compiler, new_compiler_result tc fs = inr compiler →
               customize_compiler_result tc compiler fs = None →
               compile_calls (trace r) = 1).
Proof.
  intros p r.
  destruct (ve_build_ext_run_trace h tc exts fs) as (rest & Ht & Hrest & _).
  fold r p in Ht.
  pose proof (precompile_S_files_events h tc fs) as Hpre. fold p in Hpre.
  pose proof (precompile_S_files_run h tc fs) as Hp. fold p in Hp.
  pose proof (build_step_events_no_compile rest Hrest) as Hnone.
  split; [|split; [eauto|]].
  - intros e He. subst r. unfold ve_build_ext_run.
    rewrite try_except_run, outcome_bind. fold p. rewrite He.
    rewrite (bind_raised _ _ _ _ He). fold p. cbn [outcome fs_after trace].
    assert (Hnb : attempted_builds p = []).
    { unfold attempted_builds. clear -Hpre.
      induction Hpre as [|ev t Hev _ IH]; [reflexivity|].
      destruct ev; try discriminate Hev; exact IH. }
    destruct (except_matches [PlatformError] e).
    + split; [|reflexivity]. unfold attempted_builds in *. cbn [trace].
      rewrite omap_app, Hnb. reflexivity.
    + split; [|reflexivity]. unfold attempted_builds in *. cbn [trace].
      exact Hnb.
  - rewrite Ht, compile_calls_app, Hnone, Nat.add_0_r. rewrite Hp.
    destruct (String.eqb (machine h) "x86_64") eqn:Hm.
    + cbv zeta.
      split; [|split; [intros Hne; apply String.eqb_eq in Hm; contradiction|]].
      * destruct (new_compiler_result tc fs) as [e|c];
          [|destruct (customize_compiler_result tc c fs) as [e|];
            [|destruct (compile_result tc _ _ fs)]];
          vm_compute; lia.
      * intros _ c -> ->. destruct (compile_result tc _ _ fs); reflexivity.
    + split; [vm_compute; lia|]. split; [reflexivity|].
      intros Heq. apply String.eqb_neq in Hm. contradiction.
Qed.

Lemma precompile_failure_handling_witness :
  let h := linux_host ∅ in
  let e := mkExn PlatformError "don't know how to compile on this platform" None in
  let tc := sample_toolchain None (Some e) [] CompileError in
  let zstd := plain_extension "numcodecs.zstd" "numcodecs/zstd.pyx" in
  let r := ve_build_ext_run h tc [zstd] sample_tree in
  outcome r = Raised (mkExn BuildFailed "" (Some e)) ∧
  attempted_builds r = [] ∧
  compile_calls (trace r) = 1 ∧
  compile_calls (trace (ve_build_ext_run (arm_host ∅) tc [zstd] sample_tree)) = 0.
Proof.
  intros h e tc zstd r.
  destruct (precompile_failure_handling h tc [zstd] sample_tree)
    as (Hraise & _ & _ & _ & Hone).
  destruct (Hraise e) as [Hnb Hr]; [vm_compute; reflexivity|].
  fold r in Hnb, Hr. split; [rewrite Hr; vm_compute; reflexivity|].
  split; [exact Hnb|]. split.
  - apply (Hone eq_refl {| src_extensions := [".c"; ".cpp"] |}); reflexivity.
  - destruct (precompile_failure_handling (arm_host ∅) tc [zstd] sample_tree)
      as (_ & _ & _ & Hzero & _).
    apply Hzero. vm_compute. discriminate.
Defined.

(** ** Cleaning up *)

Lemma glob_fs_elem (tc : Toolchain) (pattern : string) (fs : FS) (p : string) :
  p ∈ glob_fs tc pattern fs ↔ fnmatch tc pattern p = true ∧ is_Some (fs !! p).
Proof.
  unfold glob_fs. rewrite list_elem_of_filter, list_elem_of_fmap.
  split.
  - intros [Hm ([q n] & -> & Hq)]. split; [exact Hm|].
    apply elem_of_map_to_list in Hq. simpl. eauto.
  - intros [Hm [n Hn]]. split; [exact Hm|].
    exists (p, n). split; [reflexivity|]. apply elem_of_map_to_list. exact Hn.
Qed.

Lemma glob_fs_NoDup (tc : Toolchain) (pattern : string) (fs : FS) :
  NoDup (glob_fs tc pattern fs).
Proof. unfold glob_fs. apply NoDup_filter, NoDup_fst_map_to_list. Qed.

Lemma glob_fs_nil (tc : Toolchain) (pattern : string) (fs : FS) :
  (∀ p, fnmatch tc pattern p = true → fs !! p = None) →
  glob_fs tc pattern fs = [].
Proof.
  intros Hnone. apply elem_of_nil_inv. intros p [Hm [n Hn]]%glob_fs_elem.
  rewrite (Hnone p Hm) in Hn. discriminate Hn.
Qed.

Lemma os_remove_run (tc : Toolchain) (f : string) (fs : FS) :
  os_remove tc f fs =
  match fs !! f with
  | Some File =>
      if remove_denied tc f fs
      then mkRun (Raised (mkExn PermissionError f None)) fs [EvRemove f]
      else mkRun (Returned tt) (delete f fs) [EvRemove f]
  | Some Dir => mkRun (Raised (mkExn IsADirectoryError f None)) fs [EvRemove f]
  | None => mkRun (Raised (mkExn FileNotFoundError f None)) fs [EvRemove f]
  end.
Proof.
  unfold os_remove. run_eval.
  destruct (fs !! f) as [[]|]; [destruct (remove_denied tc f fs)| |]; reflexivity.
Qed.

Lemma os_remove_file (tc : Toolchain) (f : string) (fs : FS) :
  fs !! f = Some File →
  remove_denied tc f fs = false →
  os_remove tc f fs = mkRun (Returned tt) (delete f fs) [EvRemove f].
Proof. intros Hf Hd. rewrite os_remove_run, Hf, Hd. reflexivity. Qed.

(** Removing the regular files of a duplicate-free list, one after the
    other, succeeds and leaves none of them, as long as no removal is
    refused. *)
Lemma remove_each (tc : Toolchain) (l : list string) (fs : FS) :
  NoDup l →
  (∀ p, p ∈ l → fs !! p = Some File) →
  (∀ p fs0, p ∈ l → remove_denied tc p fs0 = false) →
  ∃ fs', for_each l (os_remove tc) fs = mkRun (Returned tt) fs' (map EvRemove l) ∧
         fs' ⊆ fs ∧ ∀ p, p ∈ l → fs' !! p = None.
Proof.
  revert fs. induction l as [|f l IH]; intros fs Hnd Hfiles Hallowed.
  - exists fs. split; [reflexivity|]. split; [reflexivity|].
    intros p Hp. apply elem_of_nil in Hp. destruct Hp.
  - apply NoDup_cons in Hnd as [Hf Hnd].
    destruct (IH (delete f fs) Hnd) as (fs' & Hrun & Hsub & Hgone).
    { intros p Hp. rewrite lookup_delete_ne by (intros ->; contradiction).
      apply Hfiles. right. exact Hp. }
    { intros p fs0 Hp. apply Hallowed. right. exact Hp. }
    exists fs'. split; [|split].
    + cbn [for_each]. rewrite bind_run.
      rewrite (os_remove_file tc f fs)
        by first [apply Hfiles; left | apply Hallowed; left].
      cbn [outcome fs_after trace]. rewrite Hrun. reflexivity.
    + etrans; [exact Hsub|]. apply delete_subseteq.
    + intros p [->|Hp]%elem_of_cons; [|exact (Hgone p Hp)].
      eapply lookup_weaken_None; [|exact Hsub]. apply lookup_delete_eq.
Qed.

Lemma Sclean_run_eq (h : Host) (tc : Toolchain) (fs : FS) :
  Sclean_run h tc fs =
  (for_each
     (if String.eqb (machine h) "x86_64"
      then glob_fs tc "c-blosc/internal-complibs/zstd*/decompress/*amd64.o" fs
      else [])
     (os_remove tc);;
   clean_run tc) fs.
Proof.
  unfold Sclean_run, glob.
  destruct (String.eqb (machine h) "x86_64"); run_eval; [|reflexivity].
  destruct (for_each _ (os_remove tc) fs) as [[[]|e] fs1 t1]; reflexivity.
Qed.

(** A removal loop that returned has removed every path of its list, and
    nothing was added. *)
Lemma remove_each_returned (tc : Toolchain) (l : list string) (fs : FS) :
  outcome (for_each l (os_remove tc) fs) = Returned tt →
  fs_after (for_each l (os_remove tc) fs) ⊆ fs ∧
  ∀ p, p ∈ l → fs_after (for_each l (os_remove tc) fs) !! p = None.
Proof.
  revert fs. induction l as [|f l IH]; intros fs.
  - intros _. split; [reflexivity|].
    intros p Hp. apply elem_of_nil in Hp. destruct Hp.
  - cbn [for_each]. rewrite bind_run, os_remove_run.
    destruct (fs !! f) as [[]|]; [destruct (remove_denied tc f fs)| |];
      cbn [outcome fs_after trace]; try discriminate.
    intros Hret. destruct (IH (delete f fs) Hret) as [Hsub Hgone].
    split; [etrans; [exact Hsub|apply delete_subseteq]|].
    intros p [->|Hp]%elem_of_cons; [|exact (Hgone p Hp)].
    eapply lookup_weaken_None; [|exact Hsub]. apply lookup_delete_eq.
Qed.

Lemma clean_run_run (tc : Toolchain) (fs : FS) :
  clean_run tc fs =
  match clean_result tc fs with
  | inl e => mkRun (Raised e) fs [EvClean]
  | inr fs' => mkRun (Returned tt) fs' [EvClean]
  end.
Proof.
  unfold clean_run. destruct (clean_result tc fs) as [e|fs'] eqn:Hc.
  - apply external_raised, Hc.
  - apply external_returned, Hc.
Qed.

(** Removal is driven by the glob: after a cleanup that returned, the next
    one matches nothing and is the inherited cleanup alone. *)
Lemma second_clean_removes_nothing (h : Host) (tc : Toolchain) (fs : FS) :
  (∀ fs0 fs1, clean_result tc fs0 = inr fs1 → fs1 ⊆ fs0) →
  outcome (Sclean_run h tc fs) = Returned tt →
  Sclean_run h tc (fs_after (Sclean_run h tc fs))
  = clean_run tc (fs_after (Sclean_run h tc fs)).
Proof.
  intros Hshrink. rewrite (Sclean_run_eq h tc fs).
  set (l := if String.eqb (machine h) "x86_64"
            then glob_fs tc "c-blosc/internal-complibs/zstd*/decompress/*amd64.o" fs
            else []).
  rewrite bind_run.
  destruct (outcome (for_each l (os_remove tc) fs)) as [[]|e] eqn:Hloop; [|discriminate].
  destruct (remove_each_returned tc l fs Hloop) as [Hsub Hgone].
  set (fs' := fs_after (for_each l (os_remove tc) fs)) in *.
  rewrite clean_run_run.
  destruct (clean_result tc fs') as [e|fs1] eqn:Hc; [discriminate|].
  cbn [outcome fs_after trace]. intros _.
  rewrite (Sclean_run_eq h tc fs1).
  assert (Hnil : (if String.eqb (machine h) "x86_64"
                  then glob_fs tc "c-blosc/internal-complibs/zstd*/decompress/*amd64.o" fs1
                  else []) = []).
  { subst l. destruct (String.eqb (machine h) "x86_64"); [|reflexivity].
    apply glob_fs_nil. intros p Hm.
    eapply lookup_weaken_None; [|exact (Hshrink fs' fs1 Hc)].
    destruct (fs !! p) as [n|] eqn:Hp.
    - apply Hgone. apply glob_fs_elem. rewrite Hp. eauto.
    - eapply lookup_weaken_None; [exact Hp|exact Hsub]. }
  rewrite Hnil. cbn [for_each]. run_eval.
  destruct (clean_run tc fs1) as [[[]|e] fs2 t2]; reflexivity.
Qed.

(** The removal loop: it logs removals only; when it returns it has gone
    through the whole list and changed no other path; when it raises, it
    is with an [OSError]. *)
Lemma remove_loop_cases (tc : Toolchain) (l : list string) (fs : FS) :
  let r := for_each l (os_remove tc) fs in
  (EvClean ∉ trace r) ∧
  (outcome r = Returned tt →
   trace r = map EvRemove l ∧ ∀ p, p ∉ l → fs_after r !! p = fs !! p) ∧
  (∀ e, outcome r = Raised e → issubclass (exn_class e) OSError = true) ∧
  ((∃ f, f ∈ l ∧ fs !! f = Some Dir) → ∃ e, outcome r = Raised e).
Proof.
  cbv zeta. revert fs. induction l as [|x l IH]; intros fs.
  - cbn [for_each]. split; [intros Hin; apply elem_of_nil in Hin; exact Hin|].
    split; [intros _; split; [reflexivity|reflexivity]|].
    split; [discriminate|]. intros (f & Hf & _). apply elem_of_nil in Hf. destruct Hf.
  - cbn [for_each]. rewrite bind_run, os_remove_run.
    destruct (fs !! x) as [[]|] eqn:Hx;
      [destruct (remove_denied tc x fs)| |]; cbn [outcome fs_after trace].
    + split; [|split; [discriminate|split; [|eauto]]].
      * intros Hin%list_elem_of_singleton. discriminate Hin.
      * intros e [= <-]. reflexivity.
    + destruct (IH (delete x fs)) as (Hnc & Hret & Hos & Hdir).
      split; [|split; [|split]].
      * intros [Hin|Hin]%elem_of_cons; [discriminate Hin|exact (Hnc Hin)].
      * intros Ho. destruct (Hret Ho) as [Ht Hl]. split.
        -- cbn [app map]. rewrite Ht. reflexivity.
        -- intros p Hp. apply not_elem_of_cons in Hp as [Hne Hp].
           rewrite (Hl p Hp). apply lookup_delete_ne. congruence.
      * exact Hos.
      * intros (f & Hf & Hd). apply Hdir. exists f.
        assert (Hne : x ≠ f) by (intros ->; rewrite Hx in Hd; discriminate Hd).
        apply elem_of_cons in Hf as [->|Hf]; [contradiction|].
        split; [exact Hf|]. rewrite lookup_delete_ne by exact Hne. exact Hd.
    + split; [|split; [discriminate|split; [|eauto]]].
      * intros Hin%list_elem_of_singleton. discriminate Hin.
      * intros e [= <-]. reflexivity.
    + split; [|split; [discriminate|split; [|eauto]]].
      * intros Hin%list_elem_of_singleton. discriminate Hin.
      * intros e [= <-]. reflexivity.
Qed.

(** A matched path that is a directory, or one whose removal is refused,
    makes the loop raise. *)
Lemma remove_loop_raises (tc : Toolchain) (l : list string) (fs : FS)
    (p : string) :
  p ∈ l →
  fs !! p = Some Dir ∨ (∀ fs0, remove_denied tc p fs0 = true) →
  ∃ e, outcome (for_each l (os_remove tc) fs) = Raised e.
Proof.
  revert fs. induction l as [|x l IH]; intros fs Hp Hbad.
  - apply elem_of_nil in Hp. destruct Hp.
  - cbn [for_each]. rewrite outcome_bind, os_remove_run.
    destruct (decide (x = p)) as [->|Hne].
    + destruct Hbad as [Hd|Hden].
      * rewrite Hd. cbn [outcome]. eauto.
      * destruct (fs !! p) as [[]|]; [rewrite Hden| |]; cbn [outcome]; eauto.
    + apply elem_of_cons in Hp as [->|Hp]; [contradiction|].
      destruct (fs !! x) as [[]|] eqn:Hx; [destruct (remove_denied tc x fs)| |];
        cbn [outcome fs_after]; eauto.
      apply IH; [exact Hp|]. destruct Hbad as [Hd|Hden]; [left|right; exact Hden].
      rewrite lookup_delete_ne by exact Hne. exact Hd.
Qed.

(** C8, as the code has it.  Removal is driven by a glob over the files
    that exist: whenever the inherited cleanup only removes entries, a
    cleanup that follows one that returned matches nothing, removes
    nothing and is the inherited cleanup alone.  The cleanup can raise: on
    [x86_64], when a matched path is a directory or its removal is
    refused, [os.remove] fails, the cleanup raises an [OSError] and the
    inherited cleanup is not run.  Take a source tree in which the paths
    matched by the [*amd64.o] pattern are regular files that [os.remove]
    is allowed to delete, and an inherited cleanup that does not raise and
    has nothing left to remove once it has run.  Then the first cleanup
    returns normally; on [x86_64] it removes each matched object file, and
    all of them are gone afterwards.  The second cleanup returns normally
    as well, logs no removal and leaves the file system as the first one
    left it. *)
Theorem clean_twice_is_noop (h : Host) (tc : Toolchain) (fs : FS) :
  let o_files := glob_fs tc "c-blosc/internal-complibs/zstd*/decompress/*amd64.o" fs in
  let r1 := Sclean_run h tc fs in
  let r2 := Sclean_run h tc (fs_after r1) in
  ((∀ fs0 fs1, clean_result tc fs0 = inr fs1 → fs1 ⊆ fs0) →
   outcome r1 = Returned tt →
   r2 = clean_run tc (fs_after r1) ∧ ∀ p, EvRemove p ∉ trace r2) ∧
  (machine h = "x86_64" →
   (∃ p, p ∈ o_files ∧
         (fs !! p = Some Dir ∨ ∀ fs0, remove_denied tc p fs0 = true)) →
   ∃ e, outcome r1 = Raised e ∧ issubclass (exn_class e) OSError = true ∧
        EvClean ∉ trace r1) ∧
  ((∀ p, p ∈ o_files → fs !! p = Some File) →
   (∀ p fs0, p ∈ o_files → remove_denied tc p fs0 = false) →
   (∀ fs0, ∃ fs1, clean_result tc fs0 = inr fs1 ∧ fs1 ⊆ fs0) →
   (∀ fs0 fs1, clean_result tc fs0 = inr fs1 → clean_result tc fs1 = inr fs1) →
   outcome r1 = Returned tt ∧
   (machine h = "x86_64" →
    trace r1 = map EvRemove o_files ++ [EvClean] ∧
    ∀ p, p ∈ o_files → fs_after r1 !! p = None) ∧
   r2 = mkRun (Returned tt) (fs_after r1) [EvClean]).
Proof.
  intros o_files r1 r2. split; [|split].
  - intros Hshrink Hret. unfold r2, r1.
    rewrite (second_clean_removes_nothing h tc fs Hshrink Hret). fold r1.
    split; [reflexivity|]. intros p. rewrite clean_run_run.
    destruct (clean_result tc (fs_after r1)); cbn [trace];
      intros Hin%list_elem_of_singleton; discriminate Hin.
  - intros Hm%String.eqb_eq (p & Hp & Hbad). unfold r1.
    rewrite (Sclean_run_eq h tc fs), Hm. fold o_files.
    destruct (remove_loop_cases tc o_files fs) as (Hnc & _ & Hos & _).
    cbv zeta in Hnc, Hos.
    destruct (remove_loop_raises tc o_files fs p Hp Hbad) as (e & He).
    rewrite bind_run, He. cbn [outcome trace].
    exists e. split; [reflexivity|]. split; [exact (Hos e He)|exact Hnc].
  - intros Hfiles Hallowed Hclean Hidem.
    assert (Hshrink : ∀ fs0 fs1, clean_result tc fs0 = inr fs1 → fs1 ⊆ fs0).
    { intros fs0 fs1 Hc. destruct (Hclean fs0) as (fs1' & Hc' & Hsub).
      rewrite Hc in Hc'. injection Hc' as ->. exact Hsub. }
    assert (Hr1 : ∃ fs1,
      r1 = mkRun (Returned tt) fs1
             (map EvRemove
                (if String.eqb (machine h) "x86_64" then o_files else [])
              ++ [EvClean]) ∧
      clean_result tc fs1 = inr fs1 ∧
      (String.eqb (machine h) "x86_64" = true →
       ∀ p, p ∈ o_files → fs1 !! p = None)).
    { subst r1. rewrite (Sclean_run_eq h tc fs). fold o_files.
      set (l := if String.eqb (machine h) "x86_64" then o_files else []).
      assert (Hl : ∀ p, p ∈ l → p ∈ o_files).
      { subst l. destruct (String.eqb (machine h) "x86_64"); [auto|].
        intros p Hp. apply elem_of_nil in Hp. destruct Hp. }
      assert (Hnd : NoDup l).
      { subst l. destruct (String.eqb (machine h) "x86_64");
          [apply glob_fs_NoDup|apply NoDup_nil_2]. }
      destruct (remove_each tc l fs Hnd) as (fs' & Hrun & Hsub & Hgone);
        [intros p Hp; apply Hfiles, Hl, Hp
        |intros p fs0 Hp; apply Hallowed, Hl, Hp|].
      destruct (Hclean fs') as (fs1 & Hc1 & Hsub1).
      exists fs1. split; [|split].
      - rewrite bind_run, Hrun. cbn [outcome fs_after trace].
        rewrite clean_run_run, Hc1. reflexivity.
      - exact (Hidem fs' fs1 Hc1).
      - intros Hm p Hp. subst l. rewrite Hm in Hgone.
        eapply lookup_weaken_None; [exact (Hgone p Hp)|exact Hsub1]. }
    destruct Hr1 as (fs1 & Hr1 & Hc1 & Hgone).
    assert (Hret : outcome r1 = Returned tt) by (rewrite Hr1; reflexivity).
    split; [exact Hret|]. split.
    + intros Hm%String.eqb_eq. rewrite Hr1, Hm. split; [reflexivity|].
      exact (Hgone Hm).
    + unfold r2, r1.
      rewrite (second_clean_removes_nothing h tc fs Hshrink Hret).
      fold r1. rewrite Hr1. cbn [fs_after]. rewrite clean_run_run, Hc1.
      reflexivity.
Qed.

Lemma sample_clean_removes (fs0 : FS) :
  ∃ fs1, sample_clean fs0 = inr fs1 ∧ fs1 ⊆ fs0.
Proof. eexists. split; [reflexivity|]. apply map_filter_subseteq. Qed.

Lemma sample_clean_idempotent (fs0 fs1 : FS) :
  sample_clean fs0 = inr fs1 → sample_clean fs1 = inr fs1.
Proof.
  unfold sample_clean. intros [= <-]. f_equal.
  apply map_filter_id. intros p n [_ Hp]%map_lookup_filter_Some. exact Hp.
Qed.

Lemma clean_twice_is_noop_witness :
  let h := linux_host ∅ in
  let r1 := Sclean_run h good_toolchain built_tree in
  let r2 := Sclean_run h good_toolchain (fs_after r1) in
  (outcome r1 = Returned tt ∧
   trace r1 =
     [EvRemove "c-blosc/internal-complibs/zstd-1.5.2/decompress/huf_decompress_amd64.o";
      EvClean] ∧
   r2 = mkRun (Returned tt) (fs_after r1) [EvClean] ∧
   r2 = clean_run good_toolchain (fs_after r1)) ∧
  (∃ e, outcome (Sclean_run h good_toolchain odd_tree) = Raised e ∧
        issubclass (exn_class e) OSError = true ∧
        EvClean ∉ trace (Sclean_run h good_toolchain odd_tree)).
Proof.
  intros h r1 r2. split.
  - destruct (clean_twice_is_noop h good_toolchain built_tree) as (Hglob & _ & Hall).
    destruct Hall as (Ho & Hx & H2).
    + intros p Hp. vm_compute in Hp. apply list_elem_of_singleton in Hp.
      subst p. vm_compute. reflexivity.
    + reflexivity.
    + exact sample_clean_removes.
    + exact sample_clean_idempotent.
    + split; [exact Ho|]. split; [|split; [exact H2|]].
      * destruct (Hx eq_refl) as [Ht _]. subst r1. rewrite Ht.
        vm_compute. reflexivity.
      * apply Hglob; [|exact Ho].
        intros fs0 fs1 Hc.
        destruct (sample_clean_removes fs0) as (fs1' & Hc' & Hsub).
        simpl in Hc. rewrite Hc in Hc'. injection Hc' as ->. exact Hsub.
  - destruct (clean_twice_is_noop h good_toolchain odd_tree) as (_ & Hraise & _).
    apply Hraise; [reflexivity|].
    exists "c-blosc/internal-complibs/zstd-1.5.2/decompress/huf_decompress_amd64.o".
    split; [vm_compute; left|left; vm_compute; reflexivity].
Defined.

(** C8 as stated fails: the cleanup can raise, and a second cleanup can
    find the same file again.  When the removal of the object file is
    refused, both cleanups end with [PermissionError], the file is still
    there and the second cleanup has matched it again; when a directory
    matches the pattern, the cleanup ends with [IsADirectoryError]. *)
Lemma cleanup_raises_counterexample :
  let h := linux_host ∅ in
  let o := "c-blosc/internal-complibs/zstd-1.5.2/decompress/huf_decompress_amd64.o" in
  let r1 := Sclean_run h read_only_toolchain built_tree in
  let r2 := Sclean_run h read_only_toolchain (fs_after r1) in
  built_tree !! o = Some File ∧
  outcome r1 = Raised (mkExn PermissionError o None) ∧
  fs_after r1 !! o = Some File ∧
  outcome r2 = Raised (mkExn PermissionError o None) ∧
  trace r2 = [EvRemove o] ∧
  outcome (Sclean_run h good_toolchain odd_tree)
  = Raised (mkExn IsADirectoryError o None).
Proof. repeat split; vm_compute; reflexivity. Qed.

(* ================================================================= *)
(** * Further properties of the script *)

(** ** How the base compile arguments are chosen *)

Ltac literal_member :=
  apply (bool_decide_unpack _); vm_compute; exact I.

Ltac bca_cases h :=
  unfold base_compile_args, append;
  destruct (have_cflags h) eqn:?;
  destruct (String.eqb_spec (os_name h) "posix");
  destruct (disable_sse2 h) eqn:?; destruct (have_sse2 h) eqn:?;
  destruct (disable_avx2 h) eqn:?; destruct (have_avx2 h) eqn:?;
  destruct (String.eqb_spec (sys_platform h) "darwin");
  cbn [app].

(** X1.  Each flag is in the base compile arguments exactly when its branch
    of the module-level code is taken: a positive feature flag when there
    is no [CFLAGS], the platform is posix, the feature is detected and not
    disabled; a negative one when there is no [CFLAGS], the platform is
    posix and the feature is disabled; [-stdlib=libc++] on macOS. *)
Theorem capability_flag_characterisation (h : Host) :
  ("-msse2" ∈ base_compile_args h ↔
   have_cflags h = false ∧ os_name h = "posix" ∧
   disable_sse2 h = false ∧ have_sse2 h = true) ∧
  ("-mno-sse2" ∈ base_compile_args h ↔
   have_cflags h = false ∧ os_name h = "posix" ∧ disable_sse2 h = true) ∧
  ("-mavx2" ∈ base_compile_args h ↔
   have_cflags h = false ∧ os_name h = "posix" ∧
   disable_avx2 h = false ∧ have_avx2 h = true) ∧
  ("-mno-avx2" ∈ base_compile_args h ↔
   have_cflags h = false ∧ os_name h = "posix" ∧ disable_avx2 h = true) ∧
  ("-stdlib=libc++" ∈ base_compile_args h ↔ sys_platform h = "darwin").
Proof.
  bca_cases h;
    repeat match goal with |- _ ∧ _ => split end;
    (split;
     [ intros Hin;
       repeat (apply elem_of_cons in Hin as [Hin|Hin]; [try discriminate Hin|]);
       try (apply elem_of_nil in Hin; destruct Hin);
       repeat split; first [reflexivity | assumption]
     | intros Hc;
       repeat match goal with H : _ ∧ _ |- _ => destruct H end;
       first [discriminate | contradiction | literal_member] ]).
Qed.

Ltac bca_parts :=
  let finish :=
    (split; [reflexivity|]; split; [literal_member|]; split; literal_member) in
  let with_c a b :=
    first [ solve [exists a, b, (@nil string); finish]
          | solve [exists a, b, ["-stdlib=libc++"]; finish] ] in
  let with_b a :=
    first [ with_c a (@nil string) | with_c a ["-mno-avx2"] | with_c a ["-mavx2"] ] in
  first [ with_b (@nil string) | with_b ["-mno-sse2"] | with_b ["-msse2"] ].

(** X2.  The base compile arguments are at most three, in a fixed order
    and without repetition: at most one of the two SSE2 flags, then at most
    one of the two AVX2 flags, then [-stdlib=libc++] or nothing. *)
Theorem base_compile_args_shape (h : Host) :
  NoDup (base_compile_args h) ∧
  ∃ sse2 avx2 stdlib,
    base_compile_args h = sse2 ++ avx2 ++ stdlib ∧
    sse2 ∈ [[]; ["-mno-sse2"]; ["-msse2"]] ∧
    avx2 ∈ [[]; ["-mno-avx2"]; ["-mavx2"]] ∧
    stdlib ∈ [[]; ["-stdlib=libc++"]].
Proof.
  bca_cases h; (split; [apply (bool_decide_unpack _); vm_compute; exact I|bca_parts]).
Qed.

(** X3.  When the CPU report has no [flags] entry, no feature counts as
    detected: neither [-msse2] nor [-mavx2] is ever among the base compile
    arguments, while the disable overrides still add their negative
    flags on posix. *)
Theorem missing_cpu_flags_detect_nothing (h : Host) :
  cpu_info_flags h = None →
  have_sse2 h = false ∧ have_avx2 h = false ∧
  ("-msse2" ∉ base_compile_args h) ∧ ("-mavx2" ∉ base_compile_args h) ∧
  (have_cflags h = false → os_name h = "posix" →
   ("-mno-sse2" ∈ base_compile_args h ↔ disable_sse2 h = true) ∧
   ("-mno-avx2" ∈ base_compile_args h ↔ disable_avx2 h = true)).
Proof.
  intros Hnone.
  assert (Hs : have_sse2 h = false) by (unfold have_sse2, flags; rewrite Hnone; reflexivity).
  assert (Ha : have_avx2 h = false) by (unfold have_avx2, flags; rewrite Hnone; reflexivity).
  split; [exact Hs|]. split; [exact Ha|]. clear Hnone.
  revert Hs Ha. bca_cases h; intros Hs Ha; try discriminate;
    (split; [intros Hin; literal_membership|]);
    (split; [intros Hin; literal_membership|]);
    intros Hc Hp; try discriminate; try contradiction;
    (split; split; intros Hin; first [reflexivity | literal_member | discriminate | idtac]);
    literal_membership.
Qed.

Lemma missing_cpu_flags_detect_nothing_witness :
  ("-msse2" ∉ base_compile_args (arm_host {[ "DISABLE_NUMCODECS_AVX2" := "1" ]})) ∧
  ("-mno-avx2" ∈ base_compile_args (arm_host {[ "DISABLE_NUMCODECS_AVX2" := "1" ]})).
Proof.
  destruct (missing_cpu_flags_detect_nothing
              (arm_host {[ "DISABLE_NUMCODECS_AVX2" := "1" ]}) eq_refl)
    as (_ & _ & Hs & _ & Hneg).
  split; [exact Hs|].
  destruct Hneg as [_ Havx]; [reflexivity|reflexivity|].
  apply Havx. vm_compute. reflexivity.
Defined.

(** ** The package registry *)



(** X5.  When the [--cflags] query fails, [pkgconfig] raises at once: the
    [--libs] query is never made.  The error is [FileNotFoundError] when
    the program is absent and [CalledProcessError] when it exited with a
    non-zero status; the output of the failed process is dropped. *)
Theorem pkgconfig_stops_at_first_failure (tc : Toolchain) (package : string)
    (fs : FS) :
  process_fails (run_process tc ["pkg-config"; "--cflags"; package] fs) = true →
  ∃ e,
    pkgconfig tc package fs =
      mkRun (Raised e) fs [EvSubprocess ["pkg-config"; "--cflags"; package]] ∧
    exn_cause e = None ∧
    exn_class e =
      match run_process tc ["pkg-config"; "--cflags"; package] fs with
      | NoSuchProgram => FileNotFoundError
      | Exited _ _ => CalledProcessError
      end.
Proof.
  intros Hfail. unfold pkgconfig. rewrite bind_run, check_output_run.
  destruct (run_process tc ["pkg-config"; "--cflags"; package] fs) as [rc out|].
  - simpl in Hfail. destruct (bool_decide (rc = 0%Z)); [discriminate Hfail|].
    eexists. split; [reflexivity|]. split; reflexivity.
  - eexists. split; [reflexivity|]. split; reflexivity.
Qed.

Lemma pkgconfig_stops_at_first_failure_witness :
  ∃ e,
    pkgconfig (sample_toolchain (Some (Exited 127 "not found")) None [] CompileError)
      "blosc" sample_tree
    = mkRun (Raised e) sample_tree [EvSubprocess ["pkg-config"; "--cflags"; "blosc"]] ∧
    exn_cause e = None ∧
    exn_class e = CalledProcessError.
Proof.
  apply (pkgconfig_stops_at_first_failure
           (sample_toolchain (Some (Exited 127 "not found")) None [] CompileError)
           "blosc" sample_tree).
  vm_compute. reflexivity.
Defined.

(** ** The descriptors, field by field *)

Lemma zstd_extension_run (h : Host) (tc : Toolchain) (fs : FS) :
  zstd_extension h tc fs =
  mkRun
    (Returned
       [ {| name := "numcodecs.zstd";
            sources :=
              "numcodecs/zstd.pyx" ::
              (((glob_fs tc "c-blosc/internal-complibs/zstd*/common/*.c" fs
                 ++ glob_fs tc "c-blosc/internal-complibs/zstd*/compress/*.c" fs)
                ++ glob_fs tc "c-blosc/internal-complibs/zstd*/decompress/*.c" fs)
               ++ glob_fs tc "c-blosc/internal-complibs/zstd*/dictBuilder/*.c" fs);
            include_dirs :=
              filter (λ d, isdir fs d = true)
                (glob_fs tc "c-blosc/internal-complibs/zstd*" fs)
              ++ filter (λ d, isdir fs d = true)
                   (glob_fs tc "c-blosc/internal-complibs/zstd*/*" fs);
            define_macros := [];
            extra_compile_args := base_compile_args h;
            extra_link_args := [];
            extra_objects :=
              if String.eqb (machine h) "x86_64" then
                map (λ S, slice_but_last S +:+ "o")
                  (glob_fs tc "c-blosc/internal-complibs/zstd*/decompress/*amd64.S" fs)
              else [] |} ])
    fs [EvPrint stdout "[numcodecs] setting up Zstandard extension"].
Proof.
  unfold zstd_extension, glob_dirs, glob, info, print_numcodecs.
  destruct (String.eqb (machine h) "x86_64"); run_eval; reflexivity.
Qed.

Lemma lz4_extension_run (h : Host) (tc : Toolchain) (fs : FS) :
  lz4_extension h tc fs =
  mkRun
    (Returned
       [ {| name := "numcodecs.lz4";
            sources :=
              "numcodecs/lz4.pyx" :: glob_fs tc "c-blosc/internal-complibs/lz4*/*.c" fs;
            include_dirs :=
              filter (λ d, isdir fs d = true)
                (glob_fs tc "c-blosc/internal-complibs/lz4*" fs)
              ++ ["numcodecs"];
            define_macros := [];
            extra_compile_args := base_compile_args h;
            extra_link_args := [];
            extra_objects := [] |} ])
    fs [EvPrint stdout "[numcodecs] setting up LZ4 extension"].
Proof.
  unfold lz4_extension, glob_dirs, glob, info, print_numcodecs.
  run_eval. reflexivity.
Qed.

(** The Blosc builder, whatever the registry answers: the file system is
    left alone and nothing happens but the message and the queries. *)
Lemma blosc_extension_read_only (h : Host) (tc : Toolchain) (fs : FS) :
  fs_after (blosc_extension h tc fs) = fs ∧
  Forall (λ ev, assembly_event ev = true) (trace (blosc_extension h tc fs)).
Proof.
  unfold blosc_extension, pkgconfig, info, print_numcodecs.
  cbv [mbind M_bind bind emit]. rewrite check_output_run.
  destruct (run_process tc ["pkg-config"; "--cflags"; "blosc"] fs) as [rc out|];
    [destruct (bool_decide (rc = 0%Z))|]; cbn [outcome fs_after trace app];
    try (split; [reflexivity|];
         repeat (apply Forall_cons; split; [reflexivity|]); apply Forall_nil_2).
  rewrite check_output_run. unfold shlex_split.
  destruct (run_process tc ["pkg-config"; "--libs"; "blosc"] fs) as [rc' out'|];
    [destruct (bool_decide (rc' = 0%Z));
     [destruct (shlex_split_result tc out) as [c|];
      [destruct (shlex_split_result tc out') as [l|]|]|]|];
    cbv [raise]; cbn [outcome fs_after trace app mret M_ret ret];
    (split; [reflexivity|];
     repeat (apply Forall_cons; split; [reflexivity|]); apply Forall_nil_2).
Qed.

(** The list of [run_setup] is made of one descriptor per builder, each
    builder having run on the same, unchanged file system. *)
Lemma all_extensions_shape (h : Host) (tc : Toolchain) (fs : FS)
    (exts : list Extension) :
  outcome (all_extensions h tc fs) = Returned exts →
  ∃ b z l c s v f j,
    exts = [b; z; l; c; s; v; f; j] ∧
    outcome (blosc_extension h tc fs) = Returned [b] ∧
    outcome (zstd_extension h tc fs) = Returned [z] ∧
    outcome (lz4_extension h tc fs) = Returned [l] ∧
    outcome (compat_extension h fs) = Returned [c] ∧
    outcome (shuffle_extension h fs) = Returned [s] ∧
    outcome (vlen_extension h tc fs) = Returned [v] ∧
    outcome (fletcher_extension h fs) = Returned [f] ∧
    outcome (jenkins_extension h fs) = Returned [j].
Proof.
  unfold all_extensions. rewrite outcome_bind.
  destruct (outcome (blosc_extension h tc fs)) as [e1|] eqn:Hb; [|discriminate].
  destruct (blosc_extension_returns h tc fs e1 Hb) as (-> & x1 & -> & _).
  cbn [outcome fs_after]. rewrite outcome_bind.
  destruct (zstd_extension_returns h tc fs) as (x2 & Hz & _). rewrite Hz.
  cbn [outcome fs_after]. rewrite outcome_bind.
  destruct (lz4_extension_returns h tc fs) as (x3 & Hl & _). rewrite Hl.
  cbn [outcome fs_after]. rewrite outcome_bind.
  destruct (compat_extension_returns h fs) as (x4 & Hc & _). rewrite Hc.
  cbn [outcome fs_after]. rewrite outcome_bind.
  destruct (shuffle_extension_returns h fs) as (x5 & Hs & _). rewrite Hs.
  cbn [outcome fs_after]. rewrite outcome_bind.
  destruct (vlen_extension_returns h tc fs) as [(x6 & Hv & _)|(e6 & Hv & _)];
    rewrite Hv; [|discriminate].
  cbn [outcome fs_after]. rewrite outcome_bind.
  destruct (fletcher_extension_returns h fs) as (x7 & Hf & _). rewrite Hf.
  cbn [outcome fs_after]. rewrite outcome_bind.
  destruct (jenkins_extension_returns h fs) as (x8 & Hj & _). rewrite Hj.
  cbn [outcome fs_after]. intros [= <-].
  exists x1, x2, x3, x4, x5, x6, x7, x8. repeat split; reflexivity.
Qed.

Ltac run_eval_in H :=
  cbv [mbind M_bind bind try_except mret M_ret ret raise emit get_fs put_fs
       external] in H;
  cbn [outcome fs_after trace app] in H.

Lemma vlen_extension_run (h : Host) (tc : Toolchain) (fs : FS) :
  vlen_extension h tc fs =
  mkRun
    (match numpy_get_include tc with
     | Some numpy_include =>
         Returned
           [ {| name := "numcodecs.vlen";
                sources := ["numcodecs/vlen.pyx"];
                include_dirs := ["numcodecs"; numpy_include];
                define_macros := [];
                extra_compile_args := base_compile_args h;
                extra_link_args := [];
                extra_objects := [] |} ]
     | None => Raised (mkExn ModuleNotFoundError "No module named 'numpy'" None)
     end)
    fs [EvPrint stdout "[numcodecs] setting up vlen extension"].
Proof.
  unfold vlen_extension, import_numpy, info, print_numcodecs.
  destruct (numpy_get_include tc); run_eval; reflexivity.
Qed.

(** When the Blosc builder returns, both queries had exited with status 0,
    their outputs could be split, and its descriptor is built from them. *)
Lemma blosc_extension_returned (h : Host) (tc : Toolchain) (fs : FS)
    (exts : list Extension) :
  outcome (blosc_extension h tc fs) = Returned exts →
  ∃ cflags_out libs_out package_cflags package_libs,
    run_process tc ["pkg-config"; "--cflags"; "blosc"] fs = Exited 0 cflags_out ∧
    run_process tc ["pkg-config"; "--libs"; "blosc"] fs = Exited 0 libs_out ∧
    shlex_split_result tc cflags_out = Some package_cflags ∧
    shlex_split_result tc libs_out = Some package_libs ∧
    exts = [ {| name := "numcodecs.blosc";
                sources := ["numcodecs/blosc.pyx"];
                include_dirs := [];
                define_macros := [];
                extra_compile_args := base_compile_args h ++ package_cflags;
                extra_link_args := package_libs;
                extra_objects := [] |} ].
Proof.
  unfold blosc_extension, pkgconfig, shlex_split, info, print_numcodecs.
  cbv [mbind M_bind bind emit]. rewrite check_output_run.
  destruct (run_process tc ["pkg-config"; "--cflags"; "blosc"] fs) as [rc out|];
    [|discriminate].
  destruct (bool_decide_reflect (rc = 0%Z)) as [->|]; [|discriminate].
  cbn [outcome fs_after trace app]. rewrite check_output_run.
  destruct (run_process tc ["pkg-config"; "--libs"; "blosc"] fs) as [rc' out'|];
    [|discriminate].
  destruct (bool_decide_reflect (rc' = 0%Z)) as [->|]; [|discriminate].
  destruct (shlex_split_result tc out) as [c|] eqn:Hc; [|discriminate].
  destruct (shlex_split_result tc out') as [l|] eqn:Hl; [|discriminate].
  cbn [outcome fs_after trace app mret M_ret ret]. intros [= <-].
  exists out, out', c, l. repeat split; first [reflexivity | assumption].
Qed.

(** X6.  When both queries for [blosc] exit with status 0 and their
    outputs can be split by [shlex.split], the Blosc descriptor compiles
    [numcodecs/blosc.pyx] alone, with the base compile arguments followed
    by the registry's compile flags, and links with the registry's link
    flags; it bundles no source, include directory or object. *)
Theorem blosc_descriptor (h : Host) (tc : Toolchain) (fs : FS)
    (cflags_out libs_out : string) (package_cflags package_libs : list string) :
  run_process tc ["pkg-config"; "--cflags"; "blosc"] fs = Exited 0 cflags_out →
  run_process tc ["pkg-config"; "--libs"; "blosc"] fs = Exited 0 libs_out →
  shlex_split_result tc cflags_out = Some package_cflags →
  shlex_split_result tc libs_out = Some package_libs →
  outcome (blosc_extension h tc fs) =
  Returned [ {| name := "numcodecs.blosc";
                sources := ["numcodecs/blosc.pyx"];
                include_dirs := [];
                define_macros := [];
                extra_compile_args := base_compile_args h ++ package_cflags;
                extra_link_args := package_libs;
                extra_objects := [] |} ].
Proof.
  intros Hc Hl Hsc Hsl.
  unfold blosc_extension, pkgconfig, shlex_split, info, print_numcodecs.
  cbv [mbind M_bind bind emit]. rewrite check_output_run, Hc. simpl.
  rewrite check_output_run, Hl. simpl. rewrite Hsc, Hsl. reflexivity.
Qed.

Lemma blosc_descriptor_witness :
  outcome (blosc_extension (linux_host ∅) good_toolchain sample_tree) =
  Returned [ {| name := "numcodecs.blosc";
                sources := ["numcodecs/blosc.pyx"];
                include_dirs := [];
                define_macros := [];
                extra_compile_args := ["-msse2"; "-mavx2"; "-I/usr/include"];
                extra_link_args := ["-lblosc"];
                extra_objects := [] |} ].
Proof.
  rewrite (blosc_descriptor (linux_host ∅) good_toolchain sample_tree
             "-I/usr/include" "-lblosc" ["-I/usr/include"] ["-lblosc"]);
    [vm_compute| | | |]; reflexivity.
Defined.

Ltac builder_outcome H :=
  unfold compat_extension, shuffle_extension, fletcher_extension,
    jenkins_extension, info, print_numcodecs in H;
  run_eval_in H; injection H as <-.

Ltac vlen_outcome H tc :=
  rewrite vlen_extension_run in H; cbn [outcome] in H;
  destruct (numpy_get_include tc) as [numpy_include|]; [|discriminate H];
  injection H as <-.

(** X8.  The list assembled by [run_setup] has eight descriptors with
    pairwise distinct names, and each one is named after its first source:
    the descriptor [numcodecs.<module>] starts its sources with
    [numcodecs/<module>.pyx], so no source list is empty. *)
Theorem descriptors_named_after_first_source (h : Host) (tc : Toolchain)
    (fs : FS) (exts : list Extension) :
  outcome (all_extensions h tc fs) = Returned exts →
  List.length exts = 8 ∧
  NoDup (map name exts) ∧
  ∀ ext, ext ∈ exts →
    ∃ module bundled,
      name ext = "numcodecs." +:+ module ∧
      sources ext = ("numcodecs/" +:+ module +:+ ".pyx") :: bundled.
Proof.
  intros Hall.
  destruct (all_extensions_shape h tc fs exts Hall)
    as (b & z & l & c & sh & v & f & j & -> & Hb & Hz & Hl & Hc & Hs & Hv & Hf & Hj).
  destruct (blosc_extension_returned h tc fs [b] Hb)
    as (co & lo & pc & pl & _ & _ & _ & _ & [= ->]).
  rewrite zstd_extension_run in Hz. injection Hz as <-.
  rewrite lz4_extension_run in Hl. injection Hl as <-.
  builder_outcome Hc. builder_outcome Hs. vlen_outcome Hv tc.
  builder_outcome Hf. builder_outcome Hj.
  split; [reflexivity|]. split.
  - apply (bool_decide_unpack _). vm_compute. exact I.
  - intros ext Hin.
    repeat (apply elem_of_cons in Hin as [->|Hin];
            [cbn [name sources];
             first [ by exists "blosc", [] | by eexists "zstd", _
                   | by eexists "lz4", _ | by exists "compat_ext", []
                   | by exists "_shuffle", [] | by exists "vlen", []
                   | by exists "fletcher32", [] | by exists "jenkins", [] ]|]).
    apply elem_of_nil in Hin. destruct Hin.
Qed.

Lemma descriptors_named_after_first_source_witness :
  ∃ exts,
    outcome (all_extensions (arm_host ∅) good_toolchain ∅) = Returned exts ∧
    List.length exts = 8 ∧
    NoDup (map name exts) ∧
    ∀ ext, ext ∈ exts →
      ∃ module bundled,
        name ext = "numcodecs." +:+ module ∧
        sources ext = ("numcodecs/" +:+ module +:+ ".pyx") :: bundled.
Proof.
  eexists. split.
  - vm_compute. reflexivity.
  - apply (descriptors_named_after_first_source (arm_host ∅) good_toolchain ∅).
    vm_compute. reflexivity.
Defined.

Lemma all_extensions_read_only (h : Host) (tc : Toolchain) (fs : FS) :
  fs_after (all_extensions h tc fs) = fs ∧
  Forall (λ ev, assembly_event ev = true) (trace (all_extensions h tc fs)).
Proof.
  destruct (blosc_extension_read_only h tc fs) as [Hfs Htr].
  unfold all_extensions. cbv [mbind M_bind bind].
  destruct (blosc_extension h tc fs) as [[e1|e] fs1 t1];
    cbn [fs_after trace] in Hfs, Htr; subst fs1; [|split; [reflexivity|exact Htr]].
  destruct (zstd_extension_returns h tc fs) as (x2 & -> & _).
  destruct (lz4_extension_returns h tc fs) as (x3 & -> & _).
  destruct (compat_extension_returns h fs) as (x4 & -> & _).
  destruct (shuffle_extension_returns h fs) as (x5 & -> & _).
  destruct (fletcher_extension_returns h fs) as (x7 & Hf & _).
  destruct (jenkins_extension_returns h fs) as (x8 & Hj & _).
  destruct (vlen_extension_returns h tc fs) as [(x6 & -> & _)|(e6 & -> & _)];
    [rewrite Hf, Hj|];
    (cbn [outcome fs_after trace mret M_ret ret]; split; [reflexivity|];
     apply Forall_app; split; [exact Htr|];
     cbn [app]; repeat (apply Forall_cons; split; [reflexivity|]);
     apply Forall_nil_2).
Qed.

(** X9.  Assembling the descriptors only reads: whether it returns the
    list or raises, the file system is as it was, and all that happened is
    messages on stdout and queries to the package registry.  Nothing is
    compiled, built or removed, and nothing goes to stderr. *)
Theorem descriptor_assembly_is_read_only (h : Host) (tc : Toolchain) (fs : FS) :
  fs_after (all_extensions h tc fs) = fs ∧
  Forall (λ ev, assembly_event ev = true) (trace (all_extensions h tc fs)) ∧
  stderr_lines (all_extensions h tc fs) = [] ∧
  attempted_builds (all_extensions h tc fs) = [].
Proof.
  destruct (all_extensions_read_only h tc fs) as [Hfs Htr].
  split; [exact Hfs|]. split; [exact Htr|].
  unfold stderr_lines, attempted_builds.
  induction Htr as [|ev t Hev _ [IH1 IH2]]; [split; reflexivity|].
  destruct ev as [[] ?| | | | | | | |]; try discriminate Hev; split; assumption.
Qed.

(** ** The bundled source tree *)

Lemma glob_fs_empty (tc : Toolchain) (pattern : string) :
  glob_fs tc pattern ∅ = [].
Proof. unfold glob_fs. rewrite map_to_list_empty. reflexivity. Qed.

(** X10.  A checkout without the bundled tree is no error.  On an empty
    file system the Zstandard and LZ4 builders still return their
    descriptors, with the [.pyx] file as only source, no extra object, and
    no include directory but the fixed [numcodecs] of LZ4; on [x86_64] the
    precompilation still sets the compiler up and calls it, on an empty
    list of files; the cleanup removes nothing. *)
Theorem empty_checkout (h : Host) (tc : Toolchain) :
  outcome (zstd_extension h tc ∅) =
    Returned [ {| name := "numcodecs.zstd";
                  sources := ["numcodecs/zstd.pyx"];
                  include_dirs := [];
                  define_macros := [];
                  extra_compile_args := base_compile_args h;
                  extra_link_args := [];
                  extra_objects := [] |} ] ∧
  outcome (lz4_extension h tc ∅) =
    Returned [ {| name := "numcodecs.lz4";
                  sources := ["numcodecs/lz4.pyx"];
                  include_dirs := ["numcodecs"];
                  define_macros := [];
                  extra_compile_args := base_compile_args h;
                  extra_link_args := [];
                  extra_objects := [] |} ] ∧
  (machine h = "x86_64" →
   ∀ compiler, new_compiler_result tc ∅ = inr compiler →
               customize_compiler_result tc compiler ∅ = None →
               trace (precompile_S_files h tc ∅)
               = [EvNewCompiler; EvCustomizeCompiler; EvCompile []]) ∧
  (∀ p, EvRemove p ∉ trace (Sclean_run h tc ∅)).
Proof.
  split; [|split; [|split]].
  - rewrite zstd_extension_run, !glob_fs_empty.
    destruct (String.eqb (machine h) "x86_64"); reflexivity.
  - rewrite lz4_extension_run, !glob_fs_empty. reflexivity.
  - intros Hm%String.eqb_eq c Hn Hc.
    rewrite precompile_S_files_run, Hm, glob_fs_empty. cbv zeta.
    rewrite Hn, Hc. destruct (compile_result tc _ _ ∅); reflexivity.
  - intros p. rewrite Sclean_run_eq, glob_fs_empty.
    assert (Hl : (if String.eqb (machine h) "x86_64" then @nil string else []) = [])
      by (destruct (String.eqb (machine h) "x86_64"); reflexivity).
    rewrite Hl. cbn [for_each]. cbv [mbind M_bind bind mret M_ret ret].
    rewrite clean_run_run.
    destruct (clean_result tc ∅); cbn [trace app];
      intros Hin%list_elem_of_singleton; discriminate Hin.
Qed.

Lemma empty_checkout_witness :
  trace (precompile_S_files (linux_host ∅) good_toolchain ∅)
  = [EvNewCompiler; EvCustomizeCompiler; EvCompile []].
Proof.
  destruct (empty_checkout (linux_host ∅) good_toolchain) as (_ & _ & Hpre & _).
  apply (Hpre eq_refl {| src_extensions := [".c"; ".cpp"] |}); reflexivity.
Defined.

(** X11.  Only directories become include directories.  A path is an
    include directory of the Zstandard descriptor exactly when it is a
    directory of the tree matched by [zstd*] or [zstd*/*]; for LZ4, when it
    is a directory matched by [lz4*], or the fixed [numcodecs], which is
    there whether or not it exists.  A regular file that matches is left
    out. *)
Theorem include_dirs_are_directories (h : Host) (tc : Toolchain) (fs : FS) :
  ∃ z l,
    outcome (zstd_extension h tc fs) = Returned [z] ∧
    outcome (lz4_extension h tc fs) = Returned [l] ∧
    (∀ d, d ∈ include_dirs z ↔
          fs !! d = Some Dir ∧
          (fnmatch tc "c-blosc/internal-complibs/zstd*" d = true ∨
           fnmatch tc "c-blosc/internal-complibs/zstd*/*" d = true)) ∧
    (∀ d, d ∈ include_dirs l ↔
          (fs !! d = Some Dir ∧
           fnmatch tc "c-blosc/internal-complibs/lz4*" d = true) ∨
          d = "numcodecs").
Proof.
  eexists _, _. rewrite zstd_extension_run, lz4_extension_run.
  split; [reflexivity|]. split; [reflexivity|]. cbn [include_dirs].
  assert (Hdir : ∀ pattern d,
            d ∈ filter (λ d, isdir fs d = true) (glob_fs tc pattern fs) ↔
            fs !! d = Some Dir ∧ fnmatch tc pattern d = true).
  { intros pattern d. rewrite list_elem_of_filter, glob_fs_elem.
    unfold isdir. rewrite bool_decide_eq_true.
    split; [tauto|]. intros [Hd Hm]. rewrite Hd. eauto. }
  split; intros d; rewrite elem_of_app, !Hdir.
  - tauto.
  - rewrite list_elem_of_singleton. tauto.
Qed.

(** X12.  The bundled sources are taken from the tree as it is.  A path is
    a source of the Zstandard descriptor exactly when it is
    [numcodecs/zstd.pyx] or a path present in the tree that matches one of
    the four [zstd*/<part>/*.c] patterns; for LZ4, [numcodecs/lz4.pyx] or a
    present path matching [lz4*/*.c]. *)
Theorem bundled_sources_come_from_tree (h : Host) (tc : Toolchain) (fs : FS) :
  ∃ z l,
    outcome (zstd_extension h tc fs) = Returned [z] ∧
    outcome (lz4_extension h tc fs) = Returned [l] ∧
    (∀ p, p ∈ sources z ↔
          p = "numcodecs/zstd.pyx" ∨
          (is_Some (fs !! p) ∧
           (fnmatch tc "c-blosc/internal-complibs/zstd*/common/*.c" p = true ∨
            fnmatch tc "c-blosc/internal-complibs/zstd*/compress/*.c" p = true ∨
            fnmatch tc "c-blosc/internal-complibs/zstd*/decompress/*.c" p = true ∨
            fnmatch tc "c-blosc/internal-complibs/zstd*/dictBuilder/*.c" p = true))) ∧
    (∀ p, p ∈ sources l ↔
          p = "numcodecs/lz4.pyx" ∨
          (is_Some (fs !! p) ∧
           fnmatch tc "c-blosc/internal-complibs/lz4*/*.c" p = true)).
Proof.
  eexists _, _. rewrite zstd_extension_run, lz4_extension_run.
  split; [reflexivity|]. split; [reflexivity|]. cbn [sources].
  split; intros p; rewrite elem_of_cons, ?elem_of_app, !glob_fs_elem; tauto.
Qed.

(** ** The build driver, beyond the failing component *)

Lemma quiet_events (t : list Event) :
  Forall (λ ev, build_step_event ev = false) t →
  omap (λ ev, match ev with EvBuildExtension e => Some (name e) | _ => None end) t = [] ∧
  omap (λ ev, match ev with EvPrint stderr line => Some line | _ => None end) t = [].
Proof.
  induction 1 as [|ev t Hev _ [IH1 IH2]]; [split; reflexivity|].
  destruct ev as [[] ?| | | | | | | |]; try discriminate Hev; split; assumption.
Qed.

Lemma PlatformError_in_ext_errors (h : Host) (e : Exn) :
  except_matches (ext_errors h) e = false →
  except_matches [PlatformError] e = false.
Proof.
  unfold except_matches, ext_errors.
  destruct (String.eqb (sys_platform h) "win32"); cbn [existsb];
    intros H; repeat (apply orb_false_elim in H as [? H]);
    apply orb_false_intro; [assumption|reflexivity|assumption|reflexivity].
Qed.

(** A loop over the components that returned has handed each of them to
    the compile-and-link step, in order, and done nothing else. *)
Lemma build_loop_returned (h : Host) (tc : Toolchain) (exts : list Extension)
    (fs : FS) :
  outcome (for_each exts (ve_build_ext_build_extension h tc) fs) = Returned tt →
  trace (for_each exts (ve_build_ext_build_extension h tc) fs)
  = map EvBuildExtension exts.
Proof.
  revert fs. induction exts as [|ext exts IH]; intros fs; [reflexivity|].
  cbn [for_each]. rewrite bind_run.
  destruct (build_extension_result tc ext fs) as [e|fs'] eqn:Hb.
  - rewrite (build_extension_raised h tc ext fs e Hb).
    destruct (except_matches (ext_errors h) e); discriminate.
  - rewrite (build_extension_returned h tc ext fs fs' Hb).
    cbn [outcome fs_after trace]. intros Hret. rewrite (IH fs' Hret). reflexivity.
Qed.

(** A [build_ext] command that returned went through the precompilation
    and the whole loop, and its handler was not entered. *)
Lemma ve_build_ext_run_returned (h : Host) (tc : Toolchain)
    (exts : list Extension) (fs : FS) :
  outcome (ve_build_ext_run h tc exts fs) = Returned tt →
  outcome (precompile_S_files h tc fs) = Returned tt ∧
  trace (ve_build_ext_run h tc exts fs)
  = trace (precompile_S_files h tc fs) ++ map EvBuildExtension exts.
Proof.
  unfold ve_build_ext_run, build_ext_run. rewrite try_except_run, bind_run.
  destruct (outcome (precompile_S_files h tc fs)) as [[]|e] eqn:Hp;
    cbn [outcome fs_after trace].
  - destruct (outcome (for_each exts _ _)) as [[]|e] eqn:Hloop;
      cbn [outcome fs_after trace].
    + intros _. split; [reflexivity|].
      rewrite (build_loop_returned h tc exts _ Hloop). reflexivity.
    + destruct (except_matches [PlatformError] e); cbn [outcome]; [|discriminate].
      unfold error, raise_BuildFailed_from. rewrite outcome_bind. discriminate.
  - destruct (except_matches [PlatformError] e); cbn [outcome]; [|discriminate].
    unfold error, raise_BuildFailed_from. rewrite outcome_bind. discriminate.
Qed.

Lemma build_events_names (exts : list Extension) :
  omap (λ ev, match ev with EvBuildExtension e => Some (name e) | _ => None end)
    (map EvBuildExtension exts) = map name exts ∧
  omap (λ ev, match ev with EvPrint stderr line => Some line | _ => None end)
    (map EvBuildExtension exts) = [].
Proof.
  induction exts as [|ext exts [IH1 IH2]]; [split; reflexivity|].
  split; [simpl; f_equal; exact IH1|simpl; exact IH2].
Qed.

(** X13.  A [build_ext] command that returns normally has handed every
    descriptor of its list to the compile-and-link step exactly once and
    in the order of the list, after a precompilation that returned, and
    has printed nothing to stderr. *)
Theorem successful_build_builds_all (h : Host) (tc : Toolchain)
    (exts : list Extension) (fs : FS) :
  outcome (ve_build_ext_run h tc exts fs) = Returned tt →
  outcome (precompile_S_files h tc fs) = Returned tt ∧
  attempted_builds (ve_build_ext_run h tc exts fs) = map name exts ∧
  stderr_lines (ve_build_ext_run h tc exts fs) = [].
Proof.
  intros Hret. destruct (ve_build_ext_run_returned h tc exts fs Hret) as [Hp Ht].
  split; [exact Hp|].
  destruct (quiet_events _ (precompile_S_files_events h tc fs)) as [Hq1 Hq2].
  destruct (build_events_names exts) as [Hn1 Hn2].
  unfold attempted_builds, stderr_lines.
  rewrite Ht, !omap_app, Hq1, Hq2, Hn1, Hn2. split; reflexivity.
Qed.

Lemma successful_build_builds_all_witness :
  let exts := [plain_extension "numcodecs.blosc" "numcodecs/blosc.pyx";
               plain_extension "numcodecs.zstd" "numcodecs/zstd.pyx"] in
  outcome (precompile_S_files (linux_host ∅) good_toolchain sample_tree)
  = Returned tt ∧
  attempted_builds (ve_build_ext_run (linux_host ∅) good_toolchain exts sample_tree)
  = ["numcodecs.blosc"; "numcodecs.zstd"] ∧
  stderr_lines (ve_build_ext_run (linux_host ∅) good_toolchain exts sample_tree) = [].
Proof.
  intros exts.
  apply (successful_build_builds_all (linux_host ∅) good_toolchain exts sample_tree).
  vm_compute. reflexivity.
Defined.

(** X14.  An exception of the compile-and-link step that is not of a class
    in [ext_errors] leaves the [build_ext] command as it is: it is not
    replaced by [BuildFailed], nothing is printed for it, and the
    components after the failing one are not built. *)
Theorem foreign_error_propagates (h : Host) (tc : Toolchain)
    (pre post : list Extension) (ext : Extension) (fs : FS) (e : Exn) :
  let r0 := (precompile_S_files h tc;;
             build_ext_run (ve_build_ext_build_extension h tc) pre) fs in
  outcome r0 = Returned tt →
  build_extension_result tc ext (fs_after r0) = inl e →
  except_matches (ext_errors h) e = false →
  ve_build_ext_run h tc (pre ++ ext :: post) fs =
  mkRun (Raised e) (fs_after r0) (trace r0 ++ [EvBuildExtension ext]).
Proof.
  intros r0 Hr0 He Hm. subst r0. unfold ve_build_ext_run, build_ext_run in *.
  destruct (outcome (precompile_S_files h tc fs)) as [[]|e0] eqn:Hp;
    [|rewrite (bind_raised _ _ _ _ Hp) in Hr0; discriminate Hr0].
  rewrite (bind_returned _ _ _ _ Hp) in Hr0.
  rewrite (bind_returned _ _ _ _ Hp) in He.
  rewrite try_except_run.
  rewrite !(bind_returned _ _ _ _ Hp). cbn [outcome fs_after trace] in Hr0, He |- *.
  rewrite for_each_app, (bind_returned _ _ _ _ Hr0).
  cbn [for_each outcome fs_after trace]. rewrite bind_run.
  rewrite (build_extension_raised h tc ext _ e He), Hm.
  cbn [outcome fs_after trace].
  rewrite (PlatformError_in_ext_errors h e Hm), <- app_assoc. reflexivity.
Qed.

Lemma foreign_error_propagates_witness :
  let tc := sample_toolchain None None ["numcodecs.zstd"] ValueError in
  let blosc := plain_extension "numcodecs.blosc" "numcodecs/blosc.pyx" in
  let zstd := plain_extension "numcodecs.zstd" "numcodecs/zstd.pyx" in
  let lz4 := plain_extension "numcodecs.lz4" "numcodecs/lz4.pyx" in
  let r := ve_build_ext_run (linux_host ∅) tc ([blosc] ++ zstd :: [lz4]) sample_tree in
  outcome r = Raised (mkExn ValueError "command 'gcc' failed with exit code 1" None) ∧
  attempted_builds r = ["numcodecs.blosc"; "numcodecs.zstd"] ∧
  stderr_lines r = [].
Proof.
  intros tc blosc zstd lz4 r. subst r.
  rewrite (foreign_error_propagates (linux_host ∅) tc [blosc] [lz4] zstd sample_tree
             (mkExn ValueError "command 'gcc' failed with exit code 1" None));
    [repeat split| | |]; vm_compute; reflexivity.
Defined.

(** What the loop over the components leaves on stderr: nothing, and then
    an exception it raises is none the handler of [run] takes; or the one
    message of the component that failed, with [BuildFailed] raised. *)
Lemma build_loop_stderr (h : Host) (tc : Toolchain) (exts : list Extension)
    (fs : FS) :
  let b := for_each exts (ve_build_ext_build_extension h tc) fs in
  (stderr_lines b = [] ∧
   ∀ e, outcome b = Raised e → except_matches [PlatformError] e = false) ∨
  (∃ e, outcome b = Raised (mkExn BuildFailed "" (Some e)) ∧
        stderr_lines b = ["[numcodecs] " +:+ exn_msg e]).
Proof.
  cbv zeta. revert fs. induction exts as [|ext exts IH]; intros fs.
  - left. split; [reflexivity|]. discriminate.
  - cbn [for_each]. rewrite bind_run.
    destruct (build_extension_result tc ext fs) as [e|fs'] eqn:Hb.
    + rewrite (build_extension_raised h tc ext fs e Hb).
      destruct (except_matches (ext_errors h) e) eqn:Hm; cbn [outcome fs_after trace].
      * right. exists e. split; reflexivity.
      * left. split; [reflexivity|]. intros e' [= <-].
        apply (PlatformError_in_ext_errors h e Hm).
    + rewrite (build_extension_returned h tc ext fs fs' Hb).
      cbn [outcome fs_after trace].
      destruct (IH fs') as [[Hs Hr]|(e & Ho & Hs)].
      * left. split; [exact Hs|].
        destruct (outcome (for_each exts _ fs')); [discriminate|exact Hr].
      * right. exists e. rewrite Ho. split; [reflexivity|exact Hs].
Qed.

(** X15.  The [build_ext] command prints to stderr at most once, and only
    for a failure it turns into [BuildFailed]: either nothing was printed,
    or exactly one line was, the command raised [BuildFailed] from some
    exception, and the line is that exception's message after the
    [[numcodecs]] tag. *)
Theorem stderr_line_means_BuildFailed (h : Host) (tc : Toolchain)
    (exts : list Extension) (fs : FS) :
  stderr_lines (ve_build_ext_run h tc exts fs) = [] ∨
  ∃ e, outcome (ve_build_ext_run h tc exts fs)
       = Raised (mkExn BuildFailed "" (Some e)) ∧
       stderr_lines (ve_build_ext_run h tc exts fs)
       = ["[numcodecs] " +:+ exn_msg e].
Proof.
  destruct (quiet_events _ (precompile_S_files_events h tc fs)) as [_ Hq].
  pose proof (build_loop_stderr h tc exts (fs_after (precompile_S_files h tc fs)))
    as Hloop. cbv zeta in Hloop.
  unfold ve_build_ext_run, build_ext_run. rewrite try_except_run, bind_run.
  unfold stderr_lines in *.
  destruct (outcome (precompile_S_files h tc fs)) as [[]|e] eqn:Hp;
    cbn [outcome fs_after trace].
  - destruct Hloop as [[Hs Hr]|(e & Ho & Hs)].
    + left.
      destruct (outcome (for_each exts _ _)) as [[]|e] eqn:Ho;
        cbn [outcome fs_after trace].
      * rewrite omap_app, Hq, Hs. reflexivity.
      * rewrite (Hr e eq_refl). cbn [trace]. rewrite omap_app, Hq, Hs. reflexivity.
    + right. exists e. rewrite Ho. cbn [except_matches existsb exn_class].
      change (issubclass BuildFailed PlatformError) with false.
      cbn [orb outcome trace]. rewrite omap_app, Hq, Hs. split; reflexivity.
  - destruct (except_matches [PlatformError] e); cbn [outcome fs_after trace].
    + right. exists e. split; [reflexivity|].
      rewrite omap_app, Hq. reflexivity.
    + left. exact Hq.
Qed.

(** X16.  [except ext_errors] also takes the subclasses.  A component build
    that fails with [CompileError] or [LinkError], which derive from
    [CCompilerError], raises [BuildFailed] on every platform; one that
    fails with [FileNotFoundError] or [IsADirectoryError], which derive
    from [IOError], raises [BuildFailed] on [win32] only. *)
Theorem subclass_errors_are_converted (h : Host) (tc : Toolchain)
    (ext : Extension) (fs : FS) (e : Exn) :
  build_extension_result tc ext fs = inl e →
  (exn_class e ∈ [CompileError; LinkError] →
   outcome (ve_build_ext_build_extension h tc ext fs)
   = Raised (mkExn BuildFailed "" (Some e))) ∧
  (exn_class e ∈ [FileNotFoundError; IsADirectoryError] →
   outcome (ve_build_ext_build_extension h tc ext fs)
   = if String.eqb (sys_platform h) "win32"
     then Raised (mkExn BuildFailed "" (Some e))
     else Raised e).
Proof.
  intros H. rewrite (build_extension_raised h tc ext fs e H).
  unfold except_matches, ext_errors.
  split; intros Hc;
    repeat (apply elem_of_cons in Hc as [Hc|Hc]; [rewrite Hc|]);
    try (apply elem_of_nil in Hc; destruct Hc);
    destruct (String.eqb (sys_platform h) "win32"); reflexivity.
Qed.

Lemma subclass_errors_are_converted_witness :
  let e := mkExn CompileError "command 'gcc' failed with exit code 1" None in
  let tc := sample_toolchain None None ["numcodecs.vlen"] CompileError in
  let ext := plain_extension "numcodecs.vlen" "numcodecs/vlen.pyx" in
  outcome (ve_build_ext_build_extension (linux_host ∅) tc ext sample_tree)
  = Raised (mkExn BuildFailed "" (Some e)).
Proof.
  intros e tc ext.
  apply (subclass_errors_are_converted (linux_host ∅) tc ext sample_tree e eq_refl).
  vm_compute. left.
Defined.

(** ** The cleanup, step by step *)

(** X17.  The inherited cleanup comes last and only after every removal
    succeeded: if it ran at all, the log is the removal of each matched
    path, in order, followed by it.  If a matched path is a directory,
    [os.remove] fails, the cleanup raises an [OSError] and the inherited
    cleanup is not run.  Off [x86_64] the cleanup is the inherited one
    alone. *)
Theorem inherited_clean_runs_last (h : Host) (tc : Toolchain) (fs : FS) :
  let o_files :=
    if String.eqb (machine h) "x86_64"
    then glob_fs tc "c-blosc/internal-complibs/zstd*/decompress/*amd64.o" fs
    else [] in
  let r := Sclean_run h tc fs in
  (EvClean ∈ trace r → trace r = map EvRemove o_files ++ [EvClean]) ∧
  ((∃ f, f ∈ o_files ∧ fs !! f = Some Dir) →
   ∃ e, outcome r = Raised e ∧ issubclass (exn_class e) OSError = true ∧
        EvClean ∉ trace r) ∧
  (machine h ≠ "x86_64" → r = clean_run tc fs).
Proof.
  intros o_files r. subst r. rewrite (Sclean_run_eq h tc fs). fold o_files.
  destruct (remove_loop_cases tc o_files fs) as (Hnc & Hret & Hos & Hdir).
  cbv zeta in Hnc, Hret, Hos, Hdir. rewrite bind_run.
  split; [|split].
  - destruct (outcome (for_each o_files (os_remove tc) fs)) as [[]|e];
      cbn [trace]; [|intros Hin; contradiction].
    destruct (Hret eq_refl) as [-> _]. intros _. rewrite clean_run_run.
    destruct (clean_result tc _); reflexivity.
  - intros Hd. destruct (Hdir Hd) as (e & He). rewrite He in *.
    exists e. split; [reflexivity|]. split; [exact (Hos e eq_refl)|exact Hnc].
  - intros Hm%String.eqb_neq. subst o_files. rewrite Hm. cbn [for_each].
    cbv [mret M_ret ret]. cbn [outcome fs_after trace app].
    apply run_eta.
Qed.

Lemma inherited_clean_runs_last_witness :
  let fs : FS :=
    <["c-blosc/internal-complibs/zstd-1.5.2/decompress/old_amd64.o" := Dir]> sample_tree in
  let r := Sclean_run (linux_host ∅) good_toolchain fs in
  (∃ e, outcome r = Raised e ∧ issubclass (exn_class e) OSError = true ∧
        EvClean ∉ trace r) ∧
  Sclean_run (arm_host ∅) good_toolchain fs = clean_run good_toolchain fs.
Proof.
  intros fs r. split.
  - destruct (inherited_clean_runs_last (linux_host ∅) good_toolchain fs)
      as (_ & Hdir & _).
    apply Hdir.
    exists "c-blosc/internal-complibs/zstd-1.5.2/decompress/old_amd64.o".
    split; [vm_compute; left|vm_compute; reflexivity].
  - destruct (inherited_clean_runs_last (arm_host ∅) good_toolchain fs)
      as (_ & _ & Harm).
    apply Harm. vm_compute. discriminate.
Defined.

(** A cleanup that returned handed the inherited cleanup the tree without
    the matched paths, every other path being as it was. *)
Lemma Sclean_run_returned (h : Host) (tc : Toolchain) (fs : FS) :
  outcome (Sclean_run h tc fs) = Returned tt →
  ∃ fs',
    clean_result tc fs' = inr (fs_after (Sclean_run h tc fs)) ∧
    (∀ p, fnmatch tc "c-blosc/internal-complibs/zstd*/decompress/*amd64.o" p = false →
          fs' !! p = fs !! p) ∧
    (machine h = "x86_64" →
     ∀ p, fnmatch tc "c-blosc/internal-complibs/zstd*/decompress/*amd64.o" p = true →
          fs' !! p = None) ∧
    (machine h ≠ "x86_64" → fs' = fs).
Proof.
  rewrite (Sclean_run_eq h tc fs).
  set (l := if String.eqb (machine h) "x86_64"
            then glob_fs tc "c-blosc/internal-complibs/zstd*/decompress/*amd64.o" fs
            else []).
  rewrite bind_run.
  destruct (outcome (for_each l (os_remove tc) fs)) as [[]|e] eqn:Hloop; [|discriminate].
  destruct (remove_each_returned tc l fs Hloop) as [Hsub Hgone].
  destruct (remove_loop_cases tc l fs) as (_ & Hret & _). cbv zeta in Hret.
  destruct (Hret Hloop) as [_ Hkeep].
  rewrite clean_run_run.
  destruct (clean_result tc (fs_after (for_each l (os_remove tc) fs))) as [e|fs1] eqn:Hc;
    [discriminate|].
  cbn [outcome fs_after trace]. intros _.
  exists (fs_after (for_each l (os_remove tc) fs)). split; [exact Hc|].
  split; [|split].
  - intros p Hp. apply Hkeep. subst l.
    destruct (String.eqb (machine h) "x86_64").
    + intros [Hm _]%glob_fs_elem. congruence.
    + intros Hin. apply elem_of_nil in Hin. exact Hin.
  - intros Hm%String.eqb_eq p Hp. subst l. rewrite Hm in *.
    destruct (fs !! p) as [n|] eqn:Hfp.
    + apply Hgone. apply glob_fs_elem. rewrite Hfp. eauto.
    + eapply lookup_weaken_None; [exact Hfp|exact Hsub].
  - intros Hm%String.eqb_neq. subst l. rewrite Hm. reflexivity.
Qed.

(** X18.  The cleanup's own removals touch the matched paths only.  When
    it returns, the tree the inherited cleanup worked on is the original
    one with, on [x86_64], every path matched by the [*amd64.o] pattern
    gone, and every other path as it was; off [x86_64] it is the original
    tree.  In particular the removals add nothing to the tree. *)
Theorem cleanup_touches_only_matches (h : Host) (tc : Toolchain) (fs : FS) :
  outcome (Sclean_run h tc fs) = Returned tt →
  ∃ fs',
    clean_result tc fs' = inr (fs_after (Sclean_run h tc fs)) ∧
    fs' ⊆ fs ∧
    (∀ p, fnmatch tc "c-blosc/internal-complibs/zstd*/decompress/*amd64.o" p = false →
          fs' !! p = fs !! p) ∧
    (machine h = "x86_64" →
     ∀ p, fnmatch tc "c-blosc/internal-complibs/zstd*/decompress/*amd64.o" p = true →
          fs' !! p = None) ∧
    (machine h ≠ "x86_64" → fs' = fs).
Proof.
  intros Hret.
  destruct (Sclean_run_returned h tc fs Hret) as (fs' & Hc & Hkeep & Hgone & Hsame).
  exists fs'. split; [exact Hc|]. split; [|auto].
  apply map_subseteq_spec. intros p n Hp.
  destruct (fnmatch tc "c-blosc/internal-complibs/zstd*/decompress/*amd64.o" p)
    eqn:Hm; [|rewrite <- (Hkeep p Hm); exact Hp].
  destruct (decide (machine h = "x86_64")) as [Hx|Hx].
  - rewrite (Hgone Hx p Hm) in Hp. discriminate Hp.
  - rewrite (Hsame Hx) in Hp. exact Hp.
Qed.

Lemma cleanup_touches_only_matches_witness :
  ∃ fs',
    clean_result good_toolchain fs'
    = inr (fs_after (Sclean_run (linux_host ∅) good_toolchain built_tree)) ∧
    fs' !! "c-blosc/internal-complibs/zstd-1.5.2/decompress/huf_decompress_amd64.S"
    = Some File ∧
    fs' !! "c-blosc/internal-complibs/zstd-1.5.2/decompress/huf_decompress_amd64.o"
    = None.
Proof.
  destruct (cleanup_touches_only_matches (linux_host ∅) good_toolchain built_tree)
    as (fs' & Hc & _ & Hkeep & Hgone & _); [vm_compute; reflexivity|].
  exists fs'. split; [exact Hc|]. split.
  - rewrite Hkeep; vm_compute; reflexivity.
  - apply (Hgone eq_refl). vm_compute. reflexivity.
Defined.

(** X19.  The cleanup undoes the precompilation.  Where the [*amd64.o]
    pattern matches the object path derived from each matched assembly
    source, on [x86_64] every extra object of the Zstandard descriptor is
    gone from the tree once the cleanup's removals are done, so what the
    precompilation wrote for the descriptor is what the cleanup deletes. *)
Theorem cleanup_removes_derived_objects (h : Host) (tc : Toolchain)
    (fs0 fs : FS) (z : Extension) :
  machine h = "x86_64" →
  (∀ S, S ∈ glob_fs tc "c-blosc/internal-complibs/zstd*/decompress/*amd64.S" fs0 →
        fnmatch tc "c-blosc/internal-complibs/zstd*/decompress/*amd64.o"
          (slice_but_last S +:+ "o") = true) →
  outcome (zstd_extension h tc fs0) = Returned [z] →
  outcome (Sclean_run h tc fs) = Returned tt →
  ∃ fs',
    clean_result tc fs' = inr (fs_after (Sclean_run h tc fs)) ∧
    ∀ o, o ∈ extra_objects z → fs' !! o = None.
Proof.
  intros Hm Hpat Hz Hret.
  destruct (Sclean_run_returned h tc fs Hret) as (fs' & Hc & _ & Hgone & _).
  exists fs'. split; [exact Hc|].
  rewrite zstd_extension_run in Hz. injection Hz as <-. cbn [extra_objects].
  apply String.eqb_eq in Hm as Hmb. rewrite Hmb.
  intros o (S & -> & HS)%list_elem_of_fmap.
  apply (Hgone Hm). apply Hpat, HS.
Qed.

Lemma cleanup_removes_derived_objects_witness :
  ∃ z fs',
    outcome (zstd_extension (linux_host ∅) good_toolchain sample_tree) = Returned [z] ∧
    extra_objects z =
      ["c-blosc/internal-complibs/zstd-1.5.2/decompress/huf_decompress_amd64.o"] ∧
    clean_result good_toolchain fs'
    = inr (fs_after (Sclean_run (linux_host ∅) good_toolchain built_tree)) ∧
    ∀ o, o ∈ extra_objects z → fs' !! o = None.
Proof.
  eexists.
  assert (Hz : outcome (zstd_extension (linux_host ∅) good_toolchain sample_tree)
               = Returned [_]) by (vm_compute; reflexivity).
  assert (Hpat : ∀ S,
            S ∈ glob_fs good_toolchain
                  "c-blosc/internal-complibs/zstd*/decompress/*amd64.S" sample_tree →
            fnmatch good_toolchain "c-blosc/internal-complibs/zstd*/decompress/*amd64.o"
              (slice_but_last S +:+ "o") = true).
  { intros S HS. vm_compute in HS. apply list_elem_of_singleton in HS. subst S.
    vm_compute. reflexivity. }
  assert (Hret : outcome (Sclean_run (linux_host ∅) good_toolchain built_tree)
                 = Returned tt) by (vm_compute; reflexivity).
  destruct (cleanup_removes_derived_objects (linux_host ∅) good_toolchain
              sample_tree built_tree _ eq_refl Hpat Hz Hret) as (fs' & Hc & Hgone).
  exists fs'. split; [exact Hz|]. split; [reflexivity|]. split; assumption.
Defined.

(** ** The script as a whole *)

(** The script outside PyPy and without [DISABLE_NUMCODECS_CEXT]: the
    descriptors are assembled, and unless that raised, [setup] runs the
    script's own class for the command and turns an [OSError],
    [DistutilsError] or [CCompilerError] that leaves it into
    [SystemExit]. *)
Lemma main_with_extensions (h : Host) (tc : Toolchain) (fs : FS)
    (command : Command) :
  has_pypy_translation_info h = false →
  environ h !! "DISABLE_NUMCODECS_CEXT" = None →
  main h tc command fs =
  match outcome (all_extensions h tc fs) with
  | Raised e => mkRun (Raised e) fs (trace (all_extensions h tc fs))
  | Returned exts =>
      let c := match command with
               | build_ext_command => ve_build_ext_run h tc exts fs
               | clean_command => Sclean_run h tc fs
               end in
      mkRun (match outcome c with
             | Returned u => Returned u
             | Raised e =>
                 if except_matches [OSError; DistutilsError; CCompilerError] e
                 then Raised (mkExn SystemExit ("error: " +:+ exn_msg e) None)
                 else Raised e
             end)
            (fs_after c)
            (trace (all_extensions h tc fs)
             ++ EvSetup exts {[ "build_ext" := ve_build_ext; "clean" := Sclean ]}
                :: trace c)
  end.
Proof.
  intros Hpypy Henv.
  assert (Hw : negb (has_pypy_translation_info h)
               && negb (in_environ h "DISABLE_NUMCODECS_CEXT") = true).
  { rewrite Hpypy. unfold in_environ. rewrite Henv. reflexivity. }
  unfold main. rewrite Hw. unfold run_setup, setup.
  destruct (all_extensions_read_only h tc fs) as [Hfs _].
  cbv [mbind M_bind bind mret M_ret ret emit try_except raise].
  destruct (all_extensions h tc fs) as [[exts|e] fs1 t1];
    cbn [outcome fs_after trace] in Hfs |- *; subst fs1; [|reflexivity].
  destruct command; cbn [command_name].
  - replace (({[ "build_ext" := ve_build_ext; "clean" := Sclean ]}
               : gmap string CommandClass) !! "build_ext")
      with (Some ve_build_ext) by (vm_compute; reflexivity).
    cbn [run_command_class].
    destruct (ve_build_ext_run h tc exts fs) as [[u|e] fs2 t2];
      cbn [outcome fs_after trace app];
      [|destruct (except_matches [OSError; DistutilsError; CCompilerError] e)];
      cbn [outcome fs_after trace app]; rewrite ?app_nil_r; reflexivity.
  - replace (({[ "build_ext" := ve_build_ext; "clean" := Sclean ]}
               : gmap string CommandClass) !! "clean")
      with (Some Sclean) by (vm_compute; reflexivity).
    cbn [run_command_class].
    destruct (Sclean_run h tc fs) as [[u|e] fs2 t2];
      cbn [outcome fs_after trace app];
      [|destruct (except_matches [OSError; DistutilsError; CCompilerError] e)];
      cbn [outcome fs_after trace app]; rewrite ?app_nil_r; reflexivity.
Qed.



(** X21.  A build that returns has built everything.  Outside PyPy and
    without [DISABLE_NUMCODECS_CEXT], when the [build_ext] command of the
    script returns normally, the descriptors were assembled, the eight
    components have been handed to the compile-and-link step once each, in
    the order of [run_setup], and nothing was printed to stderr. *)
Theorem completed_build_built_everything (h : Host) (tc : Toolchain) (fs : FS) :
  has_pypy_translation_info h = false →
  environ h !! "DISABLE_NUMCODECS_CEXT" = None →
  outcome (main h tc build_ext_command fs) = Returned tt →
  (∃ exts, outcome (all_extensions h tc fs) = Returned exts) ∧
  attempted_builds (main h tc build_ext_command fs) =
    ["numcodecs.blosc"; "numcodecs.zstd"; "numcodecs.lz4"; "numcodecs.compat_ext";
     "numcodecs._shuffle"; "numcodecs.vlen"; "numcodecs.fletcher32";
     "numcodecs.jenkins"] ∧
  stderr_lines (main h tc build_ext_command fs) = [].
Proof.
  intros Hpypy Henv.
  rewrite (main_with_extensions h tc fs build_ext_command Hpypy Henv).
  destruct (outcome (all_extensions h tc fs)) as [exts|e] eqn:Hall;
    [|discriminate].
  cbv zeta. cbn [outcome]. intros Hret.
  assert (Hrun : outcome (ve_build_ext_run h tc exts fs) = Returned tt).
  { destruct (outcome (ve_build_ext_run h tc exts fs)) as [[]|e]; [reflexivity|].
    destruct (except_matches [OSError; DistutilsError; CCompilerError] e);
      discriminate Hret. }
  split; [eauto|].
  pose proof (all_extensions_names_and_macros h tc fs exts Hall) as Hnames.
  apply (f_equal (map fst)) in Hnames. unfold names_and_macros in Hnames.
  rewrite map_map in Hnames. cbn [fst map] in Hnames.
  destruct (all_extensions_read_only h tc fs) as [_ Hevents].
  assert (Hquiet :
    omap (λ ev, match ev with EvBuildExtension e => Some (name e) | _ => None end)
      (trace (all_extensions h tc fs)) = [] ∧
    omap (λ ev, match ev with EvPrint stderr line => Some line | _ => None end)
      (trace (all_extensions h tc fs)) = []).
  { clear -Hevents. induction Hevents as [|ev t Hev _ [IH1 IH2]]; [split; reflexivity|].
    destruct ev as [[] ?| | | | | | | |]; try discriminate Hev; split; assumption. }
  destruct Hquiet as [Hq1 Hq2].
  destruct (ve_build_ext_run_returned h tc exts fs Hrun) as [_ Ht].
  destruct (quiet_events _ (precompile_S_files_events h tc fs)) as [Hp1 Hp2].
  destruct (build_events_names exts) as [Hn1 Hn2].
  unfold attempted_builds, stderr_lines. cbn [trace].
  rewrite Ht, !omap_app, Hq1, Hq2. cbn [omap list_omap app].
  rewrite !omap_app, Hp1, Hp2, Hn1, Hn2. cbn [app].
  split; [exact Hnames|reflexivity].
Qed.

Lemma completed_build_built_everything_witness :
  attempted_builds (main (linux_host ∅) good_toolchain build_ext_command sample_tree) =
    ["numcodecs.blosc"; "numcodecs.zstd"; "numcodecs.lz4"; "numcodecs.compat_ext";
     "numcodecs._shuffle"; "numcodecs.vlen"; "numcodecs.fletcher32";
     "numcodecs.jenkins"] ∧
  stderr_lines (main (linux_host ∅) good_toolchain build_ext_command sample_tree) = [].
Proof.
  apply (completed_build_built_everything (linux_host ∅) good_toolchain sample_tree);
    vm_compute; reflexivity.
Defined.

(** ** The derived object paths *)

Lemma append_last_inj (s s' : string) (a b : ascii) :
  s +:+ String a EmptyString = s' +:+ String b EmptyString → s = s' ∧ a = b.
Proof.
  revert s'. induction s as [|c s IH]; intros [|c' s']; cbn [String.append].
  - intros [= ->]. split; reflexivity.
  - intros [= _ H]. destruct s'; discriminate H.
  - intros [= _ H]. destruct s; discriminate H.
  - intros [= -> H]. destruct (IH s' H) as [-> ->]. split; reflexivity.
Qed.

(** X22.  Where every matched assembly source ends in [S], as the
    [*amd64.S] pattern asks, the extra objects of the Zstandard descriptor
    on [x86_64] are the sources with that final [S] turned into [o], one
    object per source and no object twice, and no object path is itself
    one of the matched sources. *)
Theorem derived_objects_are_distinct (h : Host) (tc : Toolchain) (fs : FS)
    (z : Extension) :
  let S_files := glob_fs tc "c-blosc/internal-complibs/zstd*/decompress/*amd64.S" fs in
  machine h = "x86_64" →
  (∀ S, S ∈ S_files → ∃ stem, S = stem +:+ "S") →
  outcome (zstd_extension h tc fs) = Returned [z] →
  NoDup (extra_objects z) ∧
  List.length (extra_objects z) = List.length S_files ∧
  (∀ stem, stem +:+ "S" ∈ S_files ↔ stem +:+ "o" ∈ extra_objects z) ∧
  (∀ o, o ∈ extra_objects z → o ∉ S_files).
Proof.
  intros S_files Hm%String.eqb_eq Hends Hz.
  rewrite zstd_extension_run, Hm in Hz. injection Hz as <-.
  cbn [extra_objects]. fold S_files.
  assert (Hobj : ∀ o, o ∈ map (λ S, slice_but_last S +:+ "o") S_files ↔
                      ∃ stem, o = stem +:+ "o" ∧ stem +:+ "S" ∈ S_files).
  { intros o. rewrite list_elem_of_fmap. split.
    - intros (S & -> & HS). destruct (Hends S HS) as (stem & ->).
      exists stem. rewrite slice_but_last_app. split; [reflexivity|exact HS].
    - intros (stem & -> & HS). exists (stem +:+ "S").
      rewrite slice_but_last_app. split; [reflexivity|exact HS]. }
  split; [|split; [|split]].
  - apply (NoDup_fmap_2_strong (λ S, slice_but_last S +:+ "o"));
      [|apply glob_fs_NoDup].
    intros S S' HS HS' Heq.
    destruct (Hends S HS) as (stem & ->). destruct (Hends S' HS') as (stem' & ->).
    rewrite !slice_but_last_app in Heq.
    apply append_last_inj in Heq as [-> _]. reflexivity.
  - apply length_map.
  - intros stem. rewrite Hobj. split.
    + intros HS. exists stem. split; [reflexivity|exact HS].
    + intros (stem' & Heq & HS). apply append_last_inj in Heq as [-> _]. exact HS.
  - intros o (stem & -> & _)%Hobj Hin.
    destruct (Hends _ Hin) as (stem' & Heq).
    apply append_last_inj in Heq as [_ Heq]. discriminate Heq.
Qed.

Lemma derived_objects_are_distinct_witness :
  ∃ z,
    outcome (zstd_extension (linux_host ∅) good_toolchain sample_tree) = Returned [z] ∧
    NoDup (extra_objects z) ∧
    List.length (extra_objects z) = 1 ∧
    ("c-blosc/internal-complibs/zstd-1.5.2/decompress/huf_decompress_amd64.o"
     ∈ extra_objects z).
Proof.
  eexists.
  assert (Hz : outcome (zstd_extension (linux_host ∅) good_toolchain sample_tree)
               = Returned [_]) by (vm_compute; reflexivity).
  assert (Hends : ∀ S,
            S ∈ glob_fs good_toolchain
                  "c-blosc/internal-complibs/zstd*/decompress/*amd64.S" sample_tree →
            ∃ stem, S = stem +:+ "S").
  { intros S HS. vm_compute in HS. apply list_elem_of_singleton in HS. subst S.
    exists "c-blosc/internal-complibs/zstd-1.5.2/decompress/huf_decompress_amd64.".
    reflexivity. }
  destruct (derived_objects_are_distinct (linux_host ∅) good_toolchain sample_tree
              _ eq_refl Hends Hz) as (Hnd & Hlen & Hiff & _).
  split; [exact Hz|]. split; [exact Hnd|]. split; [exact Hlen|].
  apply (Hiff "c-blosc/internal-complibs/zstd-1.5.2/decompress/huf_decompress_amd64.").
  vm_compute. left.
Defined.
